(** * Image-description test runner: a shallow embedding of [test_runner.py]

    The runner asks a vision client for a description of an image, scores it
    against the expected description with a sentence-embedding comparator and
    marks the case passed when the score reaches a threshold.

    Modelling choices.
    - Python [float] is IEEE binary64, hence the kernel's primitive floats;
      [a >= b] is [PrimFloat.leb b a] (false as soon as one side is NaN).
    - Python [int] is [Z]. A [str] is held as its UTF-8 bytes.
    - [TestCase] objects are mutated in place and the result list holds
      references, so test cases live in a heap and lists hold locations.
      Every location holds an object, as every Python reference does.
    - Everything outside the process (file system, HTTP, the embedding model,
      the clock) is an oracle indexed by the number of external calls made so
      far, so two calls with the same arguments may answer differently.
    - Exceptions are the instances of [Exception], the ones an
      [except Exception] clause catches; [str(e)] is [exn_str].
    - Values have the types their annotations give: a threshold is a
      [float], [describe_image] of a client handed to the runner returns a
      [str]. Bodies of HTTP responses are untyped JSON.
    - Attribute assignments are recorded in a trace next to the heap. *)

From Stdlib Require Import List String Ascii ZArith Floats Uint63 Lia Bool Arith.
From Stdlib Require Import DecimalString.
Import ListNotations.
Set Warnings "-inexact-float,-register-all".
Open Scope string_scope.

(** ** Exceptions and results *)

Record exn := Exn { exn_class : string; exn_str : string }.

Inductive result (A : Type) : Type :=
| Ok (a : A)
| Raise (e : exn).
Arguments Ok {A} a.
Arguments Raise {A} e.

(** ** Python values, as [json.loads] and the clients build them *)

Inductive pyval :=
| PyNone
| PyBool (b : bool)
| PyInt (z : Z)
| PyFloat (f : float)
| PyStr (s : string)
| PyList (l : list pyval)
| PyDict (d : list (string * pyval)).

(** A dict is the list of its items; every key occurs once. *)
Fixpoint dict_get (k : string) (d : list (string * pyval)) : option pyval :=
  match d with
  | [] => None
  | (k', v) :: d' => if String.eqb k k' then Some v else dict_get k d'
  end.

Definition type_name (v : pyval) : string :=
  match v with
  | PyNone => "NoneType"
  | PyBool _ => "bool"
  | PyInt _ => "int"
  | PyFloat _ => "float"
  | PyStr _ => "str"
  | PyList _ => "list"
  | PyDict _ => "dict"
  end.

Definition TypeError (msg : string) : exn := Exn "TypeError" msg.
Definition KeyError (key : string) : exn := Exn "KeyError" ("'" ++ key ++ "'").
Definition IndexError (msg : string) : exn := Exn "IndexError" msg.

Definition is_substring (needle hay : string) : bool :=
  match String.index 0 needle hay with Some _ => true | None => false end.

Definition is_py_str (k : string) (v : pyval) : bool :=
  match v with PyStr s => String.eqb k s | _ => false end.

(** [k in v] for a string [k]. *)
Definition py_contains (k : string) (v : pyval) : result bool :=
  match v with
  | PyDict d => Ok (match dict_get k d with Some _ => true | None => false end)
  | PyList l => Ok (existsb (is_py_str k) l)
  | PyStr s => Ok (is_substring k s)
  | _ => Raise (TypeError ("argument of type '" ++ type_name v ++ "' is not iterable"))
  end.

(** [v[k]] for a string [k]. *)
Definition py_getitem (v : pyval) (k : string) : result pyval :=
  match v with
  | PyDict d =>
      match dict_get k d with Some x => Ok x | None => Raise (KeyError k) end
  | PyList _ => Raise (TypeError "list indices must be integers or slices, not str")
  | PyStr _ => Raise (TypeError "string indices must be integers, not 'str'")
  | _ => Raise (TypeError ("'" ++ type_name v ++ "' object is not subscriptable"))
  end.

(** [v[0]]. The keys of a dict read from JSON are strings, so [0] is never one. *)
Definition py_getitem0 (v : pyval) : result pyval :=
  match v with
  | PyList (x :: _) => Ok x
  | PyList [] => Raise (IndexError "list index out of range")
  | PyStr (String c _) => Ok (PyStr (String c EmptyString))
  | PyStr EmptyString => Raise (IndexError "string index out of range")
  | PyDict _ => Raise (Exn "KeyError" "0")
  | _ => Raise (TypeError ("'" ++ type_name v ++ "' object is not subscriptable"))
  end.

(** Truth value of [v], as in [if v:]. *)
Definition py_truthy (v : pyval) : bool :=
  match v with
  | PyNone => false
  | PyBool b => b
  | PyInt z => negb (Z.eqb z 0)
  | PyFloat f => negb (PrimFloat.eqb f 0)
  | PyStr s => negb (String.eqb s "")
  | PyList l => match l with [] => false | _ => true end
  | PyDict d => match d with [] => false | _ => true end
  end.

(** ** The outside world *)

Record datetime := {
  year : nat; month : nat; day : nat;
  hour : nat; minute : nat; second : nat; microsecond : nat
}.

Definition digit (n : nat) : ascii := ascii_of_nat (48 + n mod 10).

(** The [k] low decimal digits of [n], most significant first. *)
Fixpoint digits (k n : nat) : string :=
  match k with
  | O => ""
  | S k' => digits k' (n / 10) ++ String (digit n) ""
  end.

(** [datetime.isoformat()]: [YYYY-MM-DDTHH:MM:SS], then [.ffffff] unless the
    microsecond is zero. *)
Definition isoformat (d : datetime) : string :=
  digits 4 (year d) ++ "-" ++ digits 2 (month d) ++ "-" ++ digits 2 (day d)
  ++ "T" ++ digits 2 (hour d) ++ ":" ++ digits 2 (minute d) ++ ":"
  ++ digits 2 (second d)
  ++ (if Nat.eqb (microsecond d) 0 then "" else "." ++ digits 6 (microsecond d)).
Arguments isoformat : simpl never.

Record http_request := {
  req_url : string;
  req_headers : list (string * string);
  req_params : list (string * string);
  req_data : string;
  req_json : pyval
}.

Record http_response := {
  status_code : Z;
  text : string;
  json : result pyval     (* [response.json()]; raises on a body that is not JSON *)
}.

(** What one call to [model.encode([text1, text2])] yields: a row per text. *)
Definition SentenceTransformer := nat -> string -> string -> result (list float * list float).

Record World := {
  os_path_exists : nat -> string -> bool;
  read_file : nat -> string -> result string;             (* [open(p,'rb').read()] *)
  requests_post : nat -> http_request -> result http_response;
  load_model : nat -> string -> result SentenceTransformer;
  datetime_now : nat -> datetime;
  b64encode : string -> string
}.

(** Computations that only talk to the outside world: the number of external
    calls made so far goes in and comes out. *)
Definition IO (A : Type) : Type := nat -> result A * nat.

Definition io_ret {A} (a : A) : IO A := fun t => (Ok a, t).
Definition io_raise {A} (e : exn) : IO A := fun t => (Raise e, t).
Definition io_bind {A B} (m : IO A) (k : A -> IO B) : IO B :=
  fun t => match m t with
           | (Ok a, t') => k a t'
           | (Raise e, t') => (Raise e, t')
           end.
Definition io_call {A} (oracle : nat -> result A) : IO A :=
  fun t => (oracle t, S t).

Declare Scope io_scope.
Delimit Scope io_scope with io.
Notation "x <- m ; k" := (io_bind m (fun x => k))
  (at level 61, m at next level, right associativity) : io_scope.

(** ** String helpers from the Python library *)

(** [str(n)] for an [int]. *)
Definition str_of_int (z : Z) : string := NilZero.string_of_int (Z.to_int z).

(** [s.rfind(c)] for a one-character [c]: the highest index, or [-1].
    [i] is the index of the head of [s]. *)
Fixpoint rfind_from (c : ascii) (s : string) (i : Z) : Z :=
  match s with
  | EmptyString => (-1)%Z
  | String a s' =>
      let r := rfind_from c s' (i + 1)%Z in
      if (0 <=? r)%Z then r else if Ascii.eqb a c then i else (-1)%Z
  end.

Definition rfind (c : ascii) (s : string) : Z := rfind_from c s 0.

(** The loop of [genericpath._splitext] that skips leading dots: [n] is
    [dotIndex - filenameIndex]. It answers whether the loop returned from
    inside, at a character that is not a dot. *)
Fixpoint skip_leading_dots (p : string) (filenameIndex n : nat) : bool :=
  match n with
  | O => false
  | S n' =>
      match String.get filenameIndex p with
      | Some "."%char => skip_leading_dots p (S filenameIndex) n'
      | _ => true
      end
  end.

(** [os.path.splitext] of [posixpath]: separator [/], no alternative one. *)
Definition splitext (p : string) : string * string :=
  let sepIndex := rfind "/" p in
  let dotIndex := rfind "." p in
  if (sepIndex <? dotIndex)%Z then
    let filenameIndex := Z.to_nat (sepIndex + 1) in
    if skip_leading_dots p filenameIndex (Z.to_nat dotIndex - filenameIndex) then
      (String.substring 0 (Z.to_nat dotIndex) p,
       String.substring (Z.to_nat dotIndex) (String.length p - Z.to_nat dotIndex) p)
    else (p, "")
  else (p, "").

Definition lower_char (c : ascii) : ascii :=
  let n := nat_of_ascii c in
  if (65 <=? n)%nat && (n <=? 90)%nat then ascii_of_nat (n + 32) else c.

(** [s.lower()], on the letters A to Z. *)
Fixpoint lower (s : string) : string :=
  match s with
  | EmptyString => EmptyString
  | String c s' => String (lower_char c) (lower s')
  end.

(** The whitespace [str.strip] removes, in a string held as its UTF-8
    bytes. One byte: U+0009 to U+000D, U+001C to U+001F and the space. *)
Definition is_space (c : ascii) : bool :=
  let n := nat_of_ascii c in
  (n =? 32)%nat || ((9 <=? n)%nat && (n <=? 13)%nat)
  || ((28 <=? n)%nat && (n <=? 31)%nat).

(** Two bytes: U+0085 and U+00A0. *)
Definition is_space2 (c d : ascii) : bool :=
  (nat_of_ascii c =? 194)%nat
  && ((nat_of_ascii d =? 133)%nat || (nat_of_ascii d =? 160)%nat).

(** Three bytes: U+1680, U+2000 to U+200A, U+2028, U+2029, U+202F, U+205F
    and U+3000. *)
Definition is_space3 (c d e : ascii) : bool :=
  let c := nat_of_ascii c in
  let d := nat_of_ascii d in
  let e := nat_of_ascii e in
  ((c =? 225)%nat && (d =? 154)%nat && (e =? 128)%nat)
  || ((c =? 226)%nat && (d =? 128)%nat
      && (((128 <=? e)%nat && (e <=? 138)%nat)
          || (e =? 168)%nat || (e =? 169)%nat || (e =? 175)%nat))
  || ((c =? 226)%nat && (d =? 129)%nat && (e =? 159)%nat)
  || ((c =? 227)%nat && (d =? 128)%nat && (e =? 128)%nat).

(** Drops the whitespace a string starts with; [two] and [three] recognise
    the characters of two and three bytes. *)
Fixpoint drop_spaces (two : ascii -> ascii -> bool)
    (three : ascii -> ascii -> ascii -> bool) (s : string) : string :=
  match s with
  | EmptyString => EmptyString
  | String c r =>
      if is_space c then drop_spaces two three r
      else
        match r with
        | EmptyString => s
        | String d r1 =>
            if two c d then drop_spaces two three r1
            else
              match r1 with
              | EmptyString => s
              | String e r2 =>
                  if three c d e then drop_spaces two three r2 else s
              end
        end
  end.

Fixpoint rev_onto (s acc : string) : string :=
  match s with
  | EmptyString => acc
  | String c r => rev_onto r (String c acc)
  end.

Definition rev_string (s : string) : string := rev_onto s EmptyString.

Definition lstrip (s : string) : string := drop_spaces is_space2 is_space3 s.

(** From the end the bytes of a character come last byte first. *)
Definition rstrip (s : string) : string :=
  rev_string
    (drop_spaces (fun d c => is_space2 c d) (fun e d c => is_space3 c d e)
       (rev_string s)).

(** [s.strip()]. *)
Definition strip (s : string) : string := rstrip (lstrip s).

(** [d.get(k, default)] on a dict with string values. *)
Fixpoint dict_get_default (d : list (string * string)) (k default : string) : string :=
  match d with
  | [] => default
  | (k', v) :: d' => if String.eqb k k' then v else dict_get_default d' k default
  end.

Definition io_lift {A} (r : result A) : IO A := fun t => (r, t).

(** [try: m  except Exception as e: h e]. *)
Definition io_try {A} (m : IO A) (h : exn -> IO A) : IO A :=
  fun t => match m t with
           | (Ok a, t') => (Ok a, t')
           | (Raise e, t') => h e t'
           end.

Definition res_bind {A B} (r : result A) (k : A -> result B) : result B :=
  match r with Ok a => k a | Raise e => Raise e end.

Declare Scope res_scope.
Delimit Scope res_scope with res.
Notation "x <- m ; k" := (res_bind m (fun x => k))
  (at level 61, m at next level, right associativity) : res_scope.

(** ** The vision clients *)

(** The interface: a client is its [describe_image] method. *)
Record VisionAPIClient := { describe_image : string -> IO string }.

Definition NotImplementedError : exn := Exn "NotImplementedError" "".

(** The base class. *)
Definition base_client : VisionAPIClient :=
  {| describe_image := fun _ => io_raise NotImplementedError |}.

Module AzureComputerVisionClient.

Record t := { endpoint : string; api_key : string; analyze_url : string }.

Definition init (endpoint api_key : string) : t :=
  {| endpoint := endpoint; api_key := api_key;
     analyze_url := endpoint ++ "/vision/v3.2/analyze" |}.

Definition no_description : string := "No description available".

(** What [describe_image] does with the body of a 200 response. *)
Definition caption_of (body : pyval) : result pyval :=
  (has_description <- py_contains "description" body;
   has_captions <-
     (if has_description : bool then
        description <- py_getitem body "description";
        py_contains "captions" description
      else Ok false);
   if has_captions : bool then
     description <- py_getitem body "description";
     captions <- py_getitem description "captions";
     if py_truthy captions then
       first <- py_getitem0 captions;
       py_getitem first "text"
     else Ok (PyStr no_description)
   else Ok (PyStr no_description))%res.

(** The request [describe_image] posts for the bytes [image_data]. *)
Definition analyze_request (self : t) (image_data : string) : http_request :=
  let headers := [("Ocp-Apim-Subscription-Key", api_key self);
                  ("Content-Type", "application/octet-stream")] in
  let params := [("visualFeatures", "Description,Tags"); ("language", "en")] in
  {| req_url := analyze_url self; req_headers := headers;
     req_params := params; req_data := image_data; req_json := PyNone |}.

Section methods.
Context (W : World).

Definition describe_image (self : t) (image_path : string) : IO pyval :=
  (image_data <- io_call (fun t => read_file W t image_path);
   response <- io_call (fun t => requests_post W t (analyze_request self image_data));
   if (status_code response =? 200)%Z then
     body <- io_lift (json response);
     io_lift (caption_of body)
   else
     io_raise (Exn "Exception"
                 ("Azure API Error: " ++ str_of_int (status_code response)
                  ++ " - " ++ text response)))%io.
End methods.

End AzureComputerVisionClient.

Module OpenAIVisionClient.

Record t := { api_key : string; api_url : string }.

Definition init (api_key : string) : t :=
  {| api_key := api_key; api_url := "https://api.openai.com/v1/chat/completions" |}.

Definition mime_types : list (string * string) :=
  [(".jpg", "image/jpeg"); (".jpeg", "image/jpeg"); (".png", "image/png");
   (".gif", "image/gif"); (".webp", "image/webp")].

(** Lines 103 to 110: the MIME type of the image at [image_path]. *)
Definition mime_type (image_path : string) : string :=
  let ext := lower (snd (splitext image_path)) in
  dict_get_default mime_types ext "image/jpeg".

Definition image_url (image_path image_data : string) : string :=
  "data:" ++ mime_type image_path ++ ";base64," ++ image_data.

Definition payload (image_path image_data : string) : pyval :=
  PyDict
    [("model", PyStr "gpt-4o");
     ("messages",
      PyList
        [PyDict
           [("role", PyStr "user");
            ("content",
             PyList
               [PyDict [("type", PyStr "text");
                        ("text", PyStr "Describe this image in one concise sentence.")];
                PyDict [("type", PyStr "image_url");
                        ("image_url",
                         PyDict [("url", PyStr (image_url image_path image_data))])]])]]);
     ("max_tokens", PyInt 300)].

(** [s.strip()] on a value; only a [str] has the method. *)
Definition py_strip (v : pyval) : result string :=
  match v with
  | PyStr s => Ok (strip s)
  | _ => Raise (Exn "AttributeError"
                  ("'" ++ type_name v ++ "' object has no attribute 'strip'"))
  end.

(** [result['choices'][0]['message']['content'].strip()]. *)
Definition content_of (body : pyval) : result string :=
  (choices <- py_getitem body "choices";
   first <- py_getitem0 choices;
   message <- py_getitem first "message";
   content <- py_getitem message "content";
   py_strip content)%res.

Section methods.
Context (W : World).

Definition describe_image (self : t) (image_path : string) : IO string :=
  io_try
    (raw <- io_call (fun t => read_file W t image_path);
     let image_data := b64encode W raw in
     let headers := [("Content-Type", "application/json");
                     ("Authorization", "Bearer " ++ api_key self)] in
     response <- io_call (fun t => requests_post W t
                    {| req_url := api_url self; req_headers := headers;
                       req_params := []; req_data := "";
                       req_json := payload image_path image_data |});
     if (status_code response =? 200)%Z then
       body <- io_lift (json response);
       io_lift (content_of body)
     else
       io_raise (Exn "Exception"
                   ("OpenAI API Error: " ++ str_of_int (status_code response)
                    ++ " - " ++ text response)))%io
    (fun e => io_raise e).

Definition client (self : t) : VisionAPIClient :=
  Build_VisionAPIClient (describe_image self).
End methods.

End OpenAIVisionClient.

(** ** The semantic comparator *)

(** [sentence_transformers.util.cos_sim] on two vectors: each is divided by
    its Euclidean norm, clamped from below at [1e-12], and the two are
    multiplied. The library computes in single precision, in an order of
    summation it does not fix, and [compare] widens the result; the model
    computes in binary64, from left to right. The two agree where the
    arithmetic is exact, as on [[1.0]] against [[-1.0]], and can differ in
    the last digits elsewhere; the theorems about the runner hold for every
    score and read it only through comparisons. *)
Definition dot (a b : list float) : float :=
  fold_left (fun acc p => acc + fst p * snd p)%float (combine a b) 0%float.

Definition clamp_min (x lo : float) : float :=
  if PrimFloat.ltb x lo then lo else x.

Definition normalize (a : list float) : list float :=
  let denom := clamp_min (PrimFloat.sqrt (dot a a)) 1e-12 in
  map (fun x => x / denom)%float a.

Definition cos_sim (a b : list float) : float := dot (normalize a) (normalize b).

Module SemanticComparator.

Record t := { model : SentenceTransformer }.

Section methods.
Context (W : World).

Definition init (model_name : string) : IO t :=
  io_try
    (m <- io_call (fun t => load_model W t model_name);
     io_ret {| model := m |})%io
    (fun e => io_raise e).

Definition compare (self : t) (text1 text2 : string) : IO float :=
  io_try
    (embeddings <- io_call (fun t => model self t text1 text2);
     let similarity := cos_sim (fst embeddings) (snd embeddings) in
     let score := similarity in
     io_ret score)%io
    (fun e => io_raise e).
End methods.

End SemanticComparator.

(** ** Test cases and the heap *)

Module TestCase.
Record t := mk {
  id : Z;
  image_path : string;
  expected_description : string;
  actual_description : string;
  similarity_score : float;
  passed : bool;
  timestamp : string
}.

(** The constructor with the dataclass defaults. *)
Definition new (id : Z) (image_path expected_description : string) : t :=
  mk id image_path expected_description "" 0%float false "".
End TestCase.

Definition loc := nat.

(** An attribute assignment on a test case. *)
Inductive write :=
| WActual (v : string)
| WScore (v : float)
| WPassed (v : bool)
| WTimestamp (v : string).

Definition apply_write (w : write) (tc : TestCase.t) : TestCase.t :=
  let '(TestCase.mk i p e a s b ts) := tc in
  match w with
  | WActual v => TestCase.mk i p e v s b ts
  | WScore v => TestCase.mk i p e a v b ts
  | WPassed v => TestCase.mk i p e a s v ts
  | WTimestamp v => TestCase.mk i p e a s b v
  end.

Inductive event :=
| EvRun (l : loc)                 (* [run_test_case] entered on the object at [l] *)
| EvWrite (l : loc) (w : write).  (* an attribute of the object at [l] assigned *)

Definition heap := loc -> TestCase.t.

Definition upd (h : heap) (l : loc) (tc : TestCase.t) : heap :=
  fun l' => if Nat.eqb l' l then tc else h l'.

Record state := {
  st_heap : heap;
  st_tick : nat;             (* external calls made so far *)
  st_trace : list event      (* oldest first *)
}.

(** Computations of the runner: state, and exceptions that keep the state. *)
Definition M (A : Type) : Type := state -> result A * state.

Definition ret {A} (a : A) : M A := fun s => (Ok a, s).
Definition bind {A B} (m : M A) (k : A -> M B) : M B :=
  fun s => match m s with
           | (Ok a, s') => k a s'
           | (Raise e, s') => (Raise e, s')
           end.
Definition raise {A} (e : exn) : M A := fun s => (Raise e, s).
Definition try_except {A} (m : M A) (h : exn -> M A) : M A :=
  fun s => match m s with
           | (Ok a, s') => (Ok a, s')
           | (Raise e, s') => h e s'
           end.
Definition lift_io {A} (io : IO A) : M A :=
  fun s => let '(r, t') := io (st_tick s) in
           (r, {| st_heap := st_heap s; st_tick := t'; st_trace := st_trace s |}).
Definition getattr (l : loc) : M TestCase.t := fun s => (Ok (st_heap s l), s).
Definition emit (ev : event) : M unit :=
  fun s => (Ok tt, {| st_heap := st_heap s; st_tick := st_tick s;
                      st_trace := st_trace s ++ [ev] |}).
Definition setattr (l : loc) (w : write) : M unit :=
  fun s => (Ok tt, {| st_heap := upd (st_heap s) l (apply_write w (st_heap s l));
                      st_tick := st_tick s;
                      st_trace := st_trace s ++ [EvWrite l w] |}).

Declare Scope m_scope.
Delimit Scope m_scope with m.
Notation "x <- m ; k" := (bind m (fun x => k))
  (at level 61, m at next level, right associativity) : m_scope.
Notation "m ;; k" := (bind m (fun _ => k))
  (at level 61, right associativity) : m_scope.

(** ** The runner *)

Definition FileNotFoundError (msg : string) : exn := Exn "FileNotFoundError" msg.
Definition ZeroDivisionError : exn := Exn "ZeroDivisionError" "division by zero".

(** [float(n)] for a count [n]; exact below [2^53]. *)
Definition float_of_int (z : Z) : float := PrimFloat.of_uint63 (Uint63.of_Z z).

(** [a / b] on two [int]s. The quotient is the rounded quotient of the two
    integers, which is the quotient of their floats for operands below [2^53]. *)
Definition py_truediv (a b : Z) : result float :=
  if (b =? 0)%Z then Raise ZeroDivisionError
  else Ok (float_of_int a / float_of_int b)%float.

(** A number that is an [int] or a [float]. *)
Inductive pynum :=
| NInt (z : Z)
| NFloat (f : float).

Module Report.
Record t := {
  test_cases : list TestCase.t;
  total_tests : Z;
  passed : Z;
  failed : Z;
  success_rate : pynum;
  timestamp : string
}.
End Report.

Module ImageTestRunner.

Record t := {
  vision_client : VisionAPIClient;
  comparator : SemanticComparator.t;
  similarity_threshold : float
}.

Section methods.
Context (W : World).

Definition init (vision_client : VisionAPIClient) (similarity_threshold : float)
  : IO t :=
  (comparator <- io_try (SemanticComparator.init W "all-MiniLM-L6-v2")
                        (fun e => io_raise e);
   io_ret {| vision_client := vision_client; comparator := comparator;
             similarity_threshold := similarity_threshold |})%io.

Definition now_isoformat : M string :=
  lift_io (fun t => (Ok (isoformat (datetime_now W t)), S t)).

(** The body of the [try] of [run_test_case]. *)
Definition try_body (self : t) (test_case : loc) : M unit :=
  (tc <- getattr test_case;
   found <- lift_io (fun t => (Ok (os_path_exists W t (TestCase.image_path tc)), S t));
   if negb found then
     raise (FileNotFoundError ("Image file not found: " ++ TestCase.image_path tc))
   else
     description <- lift_io (describe_image (vision_client self)
                               (TestCase.image_path tc));
     setattr test_case (WActual description) ;;
     tc <- getattr test_case;
     score <- lift_io (SemanticComparator.compare (comparator self)
                         (TestCase.expected_description tc)
                         (TestCase.actual_description tc));
     setattr test_case (WScore score) ;;
     tc <- getattr test_case;
     setattr test_case
       (WPassed (PrimFloat.leb (similarity_threshold self)
                   (TestCase.similarity_score tc))) ;;
     ts <- now_isoformat;
     setattr test_case (WTimestamp ts))%m.

(** The [except Exception as e] handler of [run_test_case]. *)
Definition handler (test_case : loc) (e : exn) : M unit :=
  (setattr test_case (WActual ("Error: " ++ exn_str e)) ;;
   setattr test_case (WPassed false) ;;
   ts <- now_isoformat;
   setattr test_case (WTimestamp ts))%m.

Definition run_test_case (self : t) (test_case : loc) : M loc :=
  (emit (EvRun test_case) ;;
   try_except (try_body self test_case) (handler test_case) ;;
   ret test_case)%m.

(** The [for] loop of [run_all_tests], with its two accumulators. *)
Fixpoint run_loop (self : t) (test_cases : list loc)
    (results : list loc) (passed_count : Z) : M (list loc * Z) :=
  match test_cases with
  | [] => ret (results, passed_count)
  | test_case :: rest =>
      (result <- run_test_case self test_case;
       r <- getattr result;
       run_loop self rest (results ++ [result])
         (if TestCase.passed r then passed_count + 1 else passed_count)%Z)%m
  end.

(** [asdict(tc)]: the fields of the object as they are now. *)
Definition asdict (l : loc) : M TestCase.t := getattr l.

Fixpoint asdict_all (results : list loc) : M (list TestCase.t) :=
  match results with
  | [] => ret []
  | l :: rest => (d <- asdict l; ds <- asdict_all rest; ret (d :: ds))%m
  end.

Definition len {A} (l : list A) : Z := Z.of_nat (List.length l).

Definition run_all_tests (self : t) (test_cases : list loc) : M Report.t :=
  (acc <- run_loop self test_cases [] 0%Z;
   let '(results, passed_count) := acc in
   success_rate <-
     match test_cases with
     | _ :: _ =>
         (q <- (fun s => (py_truediv passed_count (len test_cases), s));
          ret (NFloat (q * 100)%float))
     | [] => ret (NInt 0)
     end;
   dicts <- asdict_all results;
   ts <- now_isoformat;
   ret {| Report.test_cases := dicts;
          Report.total_tests := len test_cases;
          Report.passed := passed_count;
          Report.failed := len test_cases - passed_count;
          Report.success_rate := success_rate;
          Report.timestamp := ts |})%m.
End methods.

End ImageTestRunner.

(** * Vocabulary of the properties *)

(** The fields of a test case after a sequence of assignments. *)
Definition apply_writes (ws : list write) (tc : TestCase.t) : TestCase.t :=
  fold_left (fun tc w => apply_write w tc) ws tc.

Definition is_passed_true (ev : event) : bool :=
  match ev with EvWrite _ (WPassed true) => true | _ => false end.

Definition run_of (ev : event) : list loc :=
  match ev with EvRun l => [l] | _ => [] end.

(** The objects [run_test_case] was entered on, in order. *)
Definition runs (tr : list event) : list loc := flat_map run_of tr.

Definition actual_of (l : loc) (ev : event) : list string :=
  match ev with
  | EvWrite l' (WActual v) => if Nat.eqb l' l then [v] else []
  | _ => []
  end.

(** The values assigned to [actual_description] of the object at [l], in order. *)
Definition actual_values (l : loc) (tr : list event) : list string :=
  flat_map (actual_of l) tr.

Definition is_score_write (ev : event) : bool :=
  match ev with EvWrite _ (WScore _) => true | _ => false end.

(** What happened between [s] and a later state [s']. *)
Definition new_events (s s' : state) : list event :=
  skipn (List.length (st_trace s)) (st_trace s').

(** How a state [s'] relates to an earlier state [s] when, in between, the
    tick moved to [t'], the attributes [ws] of the object at [l] were
    assigned in that order and nothing else was touched. *)
Definition effect (s s' : state) (l : loc) (t' : nat) (ws : list write) : Prop :=
  st_tick s' = t'
  /\ st_trace s' = (st_trace s ++ map (EvWrite l) ws)%list
  /\ st_heap s' l = apply_writes ws (st_heap s l)
  /\ forall l', l' <> l -> st_heap s' l' = st_heap s l'.

(** The mapping of extensions to MIME types, as the description of the
    client words it. *)
Definition mime_spec (ext : string) : string :=
  if String.eqb ext ".jpg" then "image/jpeg"
  else if String.eqb ext ".jpeg" then "image/jpeg"
  else if String.eqb ext ".png" then "image/png"
  else if String.eqb ext ".gif" then "image/gif"
  else if String.eqb ext ".webp" then "image/webp"
  else "image/jpeg".

(** ** A sample world

    Five images: one the client describes as expected, one it fails on, one
    it describes as something else, one that is not on disk, and one whose
    description the embedding model chokes on. *)

Definition sample_model : SentenceTransformer :=
  fun _ text1 text2 =>
    if String.eqb text2 "garbled" then Raise (Exn "RuntimeError" "encode failed")
    else if String.eqb text1 text2 then Ok ([1; 2]%float, [1; 2]%float)
    else Ok ([1; 0]%float, [0; 1]%float).

Definition sample_response : http_response :=
  {| status_code := 200;
     text := "";
     json := Ok (PyDict
                   [("description",
                     PyDict [("tags", PyList [PyStr "cat"]);
                             ("captions",
                              PyList [PyDict [("text", PyStr "a cat on a sofa");
                                              ("confidence", PyFloat 0.9)]])])]) |}.

Definition sample_world : World :=
  {| os_path_exists := fun _ p => negb (String.eqb p "missing.png");
     read_file := fun _ _ => Ok "bytes";
     requests_post := fun _ _ => Ok sample_response;
     load_model := fun _ _ => Ok sample_model;
     datetime_now := fun t => {| year := 2024; month := 5; day := 17; hour := 9;
                                minute := 30; second := 0; microsecond := t |};
     b64encode := fun s => s |}.

Definition sample_client : VisionAPIClient :=
  {| describe_image := fun p =>
       io_call (fun _ =>
                  if String.eqb p "down.png" then Raise (Exn "Exception" "API down")
                  else if String.eqb p "car.png" then Ok "a car"
                  else if String.eqb p "garbled.png" then Ok "garbled"
                  else Ok "a cat") |}.

Definition sample_paths : list string :=
  ["cat.png"; "down.png"; "car.png"; "missing.png"; "garbled.png"].

Definition sample_heap : heap :=
  fun l => TestCase.new (Z.of_nat l + 1) (nth l sample_paths "cat.png") "a cat".

Definition sample_state : state :=
  {| st_heap := sample_heap; st_tick := 0; st_trace := [] |}.

Definition sample_runner : ImageTestRunner.t :=
  {| ImageTestRunner.vision_client := sample_client;
     ImageTestRunner.comparator := {| SemanticComparator.model := sample_model |};
     ImageTestRunner.similarity_threshold := 0.7 |}.

(** A client that answers until the fifth external call and fails afterwards. *)
Definition flaky_client : VisionAPIClient :=
  {| describe_image := fun _ =>
       io_call (fun t => if (t <? 5)%nat then Ok "a cat"
                         else Raise (Exn "ConnectionError" "connection reset")) |}.

Definition flaky_runner : ImageTestRunner.t :=
  {| ImageTestRunner.vision_client := flaky_client;
     ImageTestRunner.comparator := {| SemanticComparator.model := sample_model |};
     ImageTestRunner.similarity_threshold := 0.7 |}.

(** A model whose two embeddings point in opposite directions. *)
Definition opposed_model : SentenceTransformer :=
  fun _ _ _ => Ok ([1]%float, [-1]%float).

Definition response_with (body : pyval) : http_response :=
  {| status_code := 200; text := ""; json := Ok body |}.

(** The world in which the service answers 200 with the given body. *)
Definition world_answering (body : pyval) : World :=
  {| os_path_exists := os_path_exists sample_world;
     read_file := read_file sample_world;
     requests_post := fun _ _ => Ok (response_with body);
     load_model := load_model sample_world;
     datetime_now := datetime_now sample_world;
     b64encode := b64encode sample_world |}.

Definition azure : AzureComputerVisionClient.t :=
  AzureComputerVisionClient.init "https://example.invalid" "key".

Definition openai : OpenAIVisionClient.t := OpenAIVisionClient.init "key".

Definition body_one_choice : pyval :=
  PyDict [("choices",
           PyList [PyDict [("message",
                            PyDict [("role", PyStr "assistant");
                                    ("content", PyStr "  A cat on a sofa. ")])]])].

Definition body_no_description : pyval := PyDict [("requestId", PyStr "1")].

Definition body_no_captions : pyval :=
  PyDict [("description", PyDict [("tags", PyList [])])].

Definition body_empty_captions : pyval :=
  PyDict [("description", PyDict [("captions", PyList [])])].

Definition body_two_captions : pyval :=
  PyDict [("description",
           PyDict [("captions",
                    PyList [PyDict [("text", PyStr "a cat")];
                            PyDict [("text", PyStr "a pet")]])])].

(** * The runner *)

Section Runner.
Context (W : World) (self : ImageTestRunner.t).

Let threshold := ImageTestRunner.similarity_threshold self.
Let client := ImageTestRunner.vision_client self.
Let scorer := ImageTestRunner.comparator self.

(** The four ways the [try] body can go on the object at [l] from [s]: the
    result, the assignments made before it, and the tick reached. *)
Inductive body_outcome (s : state) (l : loc) : result unit -> list write -> nat -> Prop :=
| body_missing :
    os_path_exists W (st_tick s) (TestCase.image_path (st_heap s l)) = false ->
    body_outcome s l
      (Raise (FileNotFoundError
                ("Image file not found: " ++ TestCase.image_path (st_heap s l))))
      [] (S (st_tick s))
| body_provider_failed e t1 :
    os_path_exists W (st_tick s) (TestCase.image_path (st_heap s l)) = true ->
    describe_image client (TestCase.image_path (st_heap s l)) (S (st_tick s))
      = (Raise e, t1) ->
    body_outcome s l (Raise e) [] t1
| body_scorer_failed d e t1 t2 :
    os_path_exists W (st_tick s) (TestCase.image_path (st_heap s l)) = true ->
    describe_image client (TestCase.image_path (st_heap s l)) (S (st_tick s))
      = (Ok d, t1) ->
    SemanticComparator.compare scorer
      (TestCase.expected_description (st_heap s l)) d t1 = (Raise e, t2) ->
    body_outcome s l (Raise e) [WActual d] t2
| body_scored d score t1 t2 :
    os_path_exists W (st_tick s) (TestCase.image_path (st_heap s l)) = true ->
    describe_image client (TestCase.image_path (st_heap s l)) (S (st_tick s))
      = (Ok d, t1) ->
    SemanticComparator.compare scorer
      (TestCase.expected_description (st_heap s l)) d t1 = (Ok score, t2) ->
    body_outcome s l (Ok tt)
      [WActual d; WScore score; WPassed (PrimFloat.leb threshold score);
       WTimestamp (isoformat (datetime_now W t2))]
      (S t2).

(** The assignments of the handler when it starts at tick [t]. *)
Definition handler_writes (e : exn) (t : nat) : list write :=
  [WActual ("Error: " ++ exn_str e); WPassed false;
   WTimestamp (isoformat (datetime_now W t))].

(** The assignments of a whole attempt whose [try] body ended with [r] at
    tick [t] after the assignments [ws], and the tick the attempt ends at. *)
Definition all_writes (r : result unit) (ws : list write) (t : nat) : list write :=
  match r with Ok _ => ws | Raise e => (ws ++ handler_writes e t)%list end.

Definition end_tick (r : result unit) (t : nat) : nat :=
  match r with Ok _ => t | Raise _ => S t end.

Definition entered (s : state) (l : loc) : state :=
  snd (emit (EvRun l) s).

(** The state after attempting the cases of a list in order. *)
Definition exec_all (cases : list loc) (s : state) : state :=
  fold_left (fun s l => snd (ImageTestRunner.run_test_case W self l s)) cases s.

(** How many of these attempts left the [passed] field of their case true. *)
Fixpoint passed_attempts (cases : list loc) (s : state) : Z :=
  match cases with
  | [] => 0%Z
  | l :: rest =>
      let s1 := snd (ImageTestRunner.run_test_case W self l s) in
      ((if TestCase.passed (st_heap s1 l) then 1 else 0)
       + passed_attempts rest s1)%Z
  end.

(** The events of one attempt: the entry, then the assignments. *)
Definition block (p : loc * list write) : list event :=
  EvRun (fst p) :: map (EvWrite (fst p)) (snd p).

(** The report of a batch and the state it leaves, read off the attempts. *)
Definition report_of (cases : list loc) (s : state) : Report.t :=
  let s1 := exec_all cases s in
  let k := passed_attempts cases s in
  {| Report.test_cases := map (st_heap s1) cases;
     Report.total_tests := ImageTestRunner.len cases;
     Report.passed := k;
     Report.failed := (ImageTestRunner.len cases - k)%Z;
     Report.success_rate :=
       match cases with
       | [] => NInt 0
       | _ :: _ =>
           NFloat (float_of_int k / float_of_int (ImageTestRunner.len cases) * 100)%float
       end;
     Report.timestamp := isoformat (datetime_now W (st_tick s1)) |}.

Definition final_state (cases : list loc) (s : state) : state :=
  let s1 := exec_all cases s in
  {| st_heap := st_heap s1; st_tick := S (st_tick s1); st_trace := st_trace s1 |}.

(** ** Lemmas *)

Lemma upd_same (h : heap) (l : loc) (tc : TestCase.t) : upd h l tc l = tc.
Proof. unfold upd. now rewrite Nat.eqb_refl. Qed.

Lemma upd_other (h : heap) (l l' : loc) (tc : TestCase.t) :
  l' <> l -> upd h l tc l' = h l'.
Proof.
  intros Hne. unfold upd.
  destruct (Nat.eqb l' l) eqn:E; [apply Nat.eqb_eq in E; contradiction | reflexivity].
Qed.

Lemma skipn_length_app {A} (a b : list A) : skipn (List.length a) (a ++ b) = b.
Proof. induction a; simpl; auto. Qed.

Lemma new_events_app (s s' : state) (evs : list event) :
  st_trace s' = (st_trace s ++ evs)%list -> new_events s s' = evs.
Proof. intros H. unfold new_events. rewrite H. apply skipn_length_app. Qed.

Lemma effect_trans s s1 s2 l t1 t2 ws1 ws2 :
  effect s s1 l t1 ws1 -> effect s1 s2 l t2 ws2 ->
  effect s s2 l t2 (ws1 ++ ws2).
Proof.
  intros (Ht1 & Htr1 & Hh1 & Ho1) (Ht2 & Htr2 & Hh2 & Ho2).
  repeat split.
  - exact Ht2.
  - rewrite Htr2, Htr1, map_app, app_assoc. reflexivity.
  - rewrite Hh2, Hh1. unfold apply_writes. now rewrite fold_left_app.
  - intros l' Hne. rewrite Ho2, Ho1 by assumption. reflexivity.
Qed.

Lemma apply_write_identity (w : write) (tc : TestCase.t) :
  TestCase.id (apply_write w tc) = TestCase.id tc
  /\ TestCase.image_path (apply_write w tc) = TestCase.image_path tc
  /\ TestCase.expected_description (apply_write w tc)
     = TestCase.expected_description tc.
Proof. destruct tc, w; simpl; auto. Qed.

Lemma apply_writes_identity (ws : list write) (tc : TestCase.t) :
  TestCase.id (apply_writes ws tc) = TestCase.id tc
  /\ TestCase.image_path (apply_writes ws tc) = TestCase.image_path tc
  /\ TestCase.expected_description (apply_writes ws tc)
     = TestCase.expected_description tc.
Proof.
  revert tc. induction ws as [| w ws IH]; intros tc; [simpl; auto |].
  unfold apply_writes in *. simpl.
  destruct (IH (apply_write w tc)) as (H1 & H2 & H3).
  destruct (apply_write_identity w tc) as (G1 & G2 & G3).
  rewrite H1, H2, H3. auto.
Qed.

Lemma append_nonempty (a : string) (c : ascii) (b : string) :
  (a ++ String c b)%string <> "".
Proof. destruct a; discriminate. Qed.

Lemma digits_nonempty (k n : nat) : digits (S k) n <> "".
Proof. simpl. apply append_nonempty. Qed.

(** A timestamp is never the empty string a fresh case carries. *)
Lemma isoformat_nonempty (d : datetime) : isoformat d <> "".
Proof.
  unfold isoformat.
  destruct (digits 4 (year d)) eqn:E; [now apply digits_nonempty in E | discriminate].
Qed.

Lemma SFcompare_antisym (x y : spec_float) :
  SFcompare y x = option_map CompOpp (SFcompare x y).
Proof.
  destruct x as [sx | sx | | sx mx ex], y as [sy | sy | | sy my ey]; cbn;
    try reflexivity;
    try (destruct sx; reflexivity); try (destruct sy; reflexivity);
    try (destruct sx, sy; reflexivity).
  destruct sx, sy; cbn; try reflexivity;
    rewrite (Z.compare_antisym ex ey);
    destruct (ex ?= ey)%Z; cbn; try reflexivity;
    rewrite ?(Pos.compare_cont_antisym mx my Eq); reflexivity.
Qed.

(** [x < y] excludes [x >= y]. *)
Lemma ltb_not_geb (x y : float) :
  PrimFloat.ltb x y = true -> PrimFloat.leb y x = false.
Proof.
  rewrite FloatAxioms.ltb_spec, FloatAxioms.leb_spec. unfold SFltb, SFleb.
  rewrite (SFcompare_antisym (Prim2SF x) (Prim2SF y)).
  destruct (SFcompare (Prim2SF x) (Prim2SF y)) as [[] |]; cbn; congruence.
Qed.

Lemma compare_spec (c : SemanticComparator.t) (a b : string)
    (t t' : nat) (score : float) :
  SemanticComparator.compare c a b t = (Ok score, t') ->
  exists e0 e1,
    SemanticComparator.model c t a b = Ok (e0, e1)
    /\ score = cos_sim e0 e1 /\ t' = S t.
Proof.
  unfold SemanticComparator.compare, io_try, io_bind, io_call, io_ret, io_raise.
  destruct (SemanticComparator.model c t a b) as [[e0 e1] | e]; intros H.
  - inversion H; subst. exists e0, e1. auto.
  - discriminate.
Qed.

Lemma init_spec (vc : VisionAPIClient) (thr : float) (t t' : nat) :
  ImageTestRunner.init W vc thr t = (Ok self, t') ->
  ImageTestRunner.vision_client self = vc
  /\ ImageTestRunner.similarity_threshold self = thr
  /\ load_model W t "all-MiniLM-L6-v2"
     = Ok (SemanticComparator.model (ImageTestRunner.comparator self))
  /\ t' = S t.
Proof.
  unfold ImageTestRunner.init, SemanticComparator.init, io_bind, io_try, io_call,
    io_ret, io_raise.
  destruct (load_model W t "all-MiniLM-L6-v2") as [m | e]; intros H.
  - inversion H; subst; cbn. auto.
  - discriminate.
Qed.

Ltac heap_simpl :=
  repeat first [ rewrite upd_same | rewrite upd_other by assumption ].

Ltac effect_done :=
  unfold effect; cbn [snd st_heap st_tick st_trace map];
  repeat rewrite upd_same;
  repeat split;
  first [ reflexivity
        | repeat rewrite <- app_assoc; reflexivity
        | let l' := fresh "l'" in let Hne := fresh "Hne" in
          intros l' Hne; now heap_simpl ].

Lemma try_body_outcome (s : state) (l : loc) :
  exists r ws t',
    body_outcome s l r ws t'
    /\ fst (ImageTestRunner.try_body W self l s) = r
    /\ effect s (snd (ImageTestRunner.try_body W self l s)) l t' ws.
Proof.
  unfold ImageTestRunner.try_body, ImageTestRunner.now_isoformat,
    bind, getattr, setattr, lift_io, raise, ret.
  cbn [st_heap st_tick st_trace].
  destruct (os_path_exists W (st_tick s) (TestCase.image_path (st_heap s l))) eqn:Hex;
    cbn [negb st_heap st_tick st_trace].
  - destruct (describe_image (ImageTestRunner.vision_client self)
                (TestCase.image_path (st_heap s l)) (S (st_tick s)))
      as [[d | e] t1] eqn:Hd; cbn [st_heap st_tick st_trace].
    + rewrite upd_same.
      assert (Hexp : TestCase.expected_description
                       (apply_write (WActual d) (st_heap s l))
                     = TestCase.expected_description (st_heap s l))
        by apply apply_write_identity.
      assert (Hact : TestCase.actual_description
                       (apply_write (WActual d) (st_heap s l)) = d)
        by (destruct (st_heap s l); reflexivity).
      rewrite Hexp, Hact.
      destruct (SemanticComparator.compare (ImageTestRunner.comparator self)
                  (TestCase.expected_description (st_heap s l)) d t1)
        as [[score | e] t2] eqn:Hc; cbn [st_heap st_tick st_trace].
      * exists (Ok tt),
          [WActual d; WScore score; WPassed (PrimFloat.leb threshold score);
           WTimestamp (isoformat (datetime_now W t2))], (S t2).
        split; [eapply body_scored; eauto |].
        split; [reflexivity |].
        repeat rewrite upd_same.
        assert (Hsc : TestCase.similarity_score
                        (apply_write (WScore score)
                           (apply_write (WActual d) (st_heap s l))) = score)
          by (destruct (st_heap s l); reflexivity).
        rewrite Hsc. effect_done.
      * exists (Raise e), [WActual d], t2.
        split; [eapply body_scorer_failed; eauto |].
        split; [reflexivity | effect_done].
    + exists (Raise e), [], t1.
      split; [eapply body_provider_failed; eauto |].
      split; [reflexivity |].
      unfold effect; cbn [snd st_heap st_tick st_trace map].
      rewrite app_nil_r. auto.
  - eexists _, [], _.
    split; [eapply body_missing; eauto |].
    split; [reflexivity |].
    unfold effect; cbn [snd st_heap st_tick st_trace map].
    rewrite app_nil_r. auto.
Qed.

(** The outcome is a function of the heap and the tick. *)
Lemma body_outcome_det s l r ws t r' ws' t' :
  body_outcome s l r ws t -> body_outcome s l r' ws' t' ->
  r = r' /\ ws = ws' /\ t = t'.
Proof.
  intros H1 H2.
  inversion H1; subst; inversion H2; subst;
    repeat match goal with
           | Ha : ?x = _, Hb : ?x = _ |- _ =>
               rewrite Ha in Hb; inversion Hb; subst; clear Hb
           end;
    try discriminate; auto.
Qed.

Lemma body_outcome_ext s s0 l r ws t :
  st_heap s0 = st_heap s -> st_tick s0 = st_tick s ->
  body_outcome s l r ws t -> body_outcome s0 l r ws t.
Proof.
  intros Hh Ht H.
  destruct s as [h t0 tr], s0 as [h0 t00 tr0]; cbn [st_heap st_tick] in Hh, Ht; subst.
  inversion H; subst; cbn [st_heap st_tick] in *.
  - now apply (body_missing {| st_heap := h; st_tick := t0; st_trace := tr0 |} l).
  - now apply (body_provider_failed {| st_heap := h; st_tick := t0; st_trace := tr0 |} l e t).
  - now apply (body_scorer_failed {| st_heap := h; st_tick := t0; st_trace := tr0 |}
                 l d e t1 t).
  - now apply (body_scored {| st_heap := h; st_tick := t0; st_trace := tr0 |}
                 l d score t1 t2).
Qed.

Lemma handler_effect (s : state) (l : loc) (e : exn) :
  fst (ImageTestRunner.handler W l e s) = Ok tt
  /\ effect s (snd (ImageTestRunner.handler W l e s)) l (S (st_tick s))
       [WActual ("Error: " ++ exn_str e); WPassed false;
        WTimestamp (isoformat (datetime_now W (st_tick s)))].
Proof.
  unfold ImageTestRunner.handler, ImageTestRunner.now_isoformat,
    bind, setattr, lift_io.
  cbn [st_heap st_tick st_trace fst snd].
  split; [reflexivity | effect_done].
Qed.

Lemma run_test_case_spec (s : state) (l : loc) :
  exists r ws t,
    body_outcome s l r ws t
    /\ fst (ImageTestRunner.try_body W self l (entered s l)) = r
    /\ fst (ImageTestRunner.run_test_case W self l s) = Ok l
    /\ effect (entered s l) (snd (ImageTestRunner.run_test_case W self l s)) l
         (end_tick r t) (all_writes r ws t).
Proof.
  destruct (try_body_outcome (entered s l) l) as (r & ws & t & Hout & Hr & Heff).
  exists r, ws, t.
  split; [eapply body_outcome_ext; [| | exact Hout]; reflexivity |].
  split; [exact Hr |].
  unfold ImageTestRunner.run_test_case, bind, try_except.
  change (emit (EvRun l) s) with (Ok tt, entered s l).
  cbv beta iota.
  destruct (ImageTestRunner.try_body W self l (entered s l)) as [[[] | e] s1] eqn:Hb;
    cbn [fst snd] in *; subst r; cbn [all_writes end_tick].
  - split; [reflexivity | exact Heff].
  - destruct (handler_effect s1 l e) as (Hok & Hh).
    destruct (ImageTestRunner.handler W l e s1) as [[[] | e'] s2] eqn:Hh2;
      cbn [fst snd] in *; try discriminate.
    split; [reflexivity |].
    pose proof Heff as (Ht & _). rewrite Ht in Hh.
    eapply effect_trans; [exact Heff | exact Hh].
Qed.

(** The events of one attempt. *)
Lemma run_test_case_events (s : state) (l : loc) r ws t :
  effect (entered s l) (snd (ImageTestRunner.run_test_case W self l s)) l
    (end_tick r t) (all_writes r ws t) ->
  new_events s (snd (ImageTestRunner.run_test_case W self l s))
  = EvRun l :: map (EvWrite l) (all_writes r ws t).
Proof.
  intros (_ & Htr & _). apply new_events_app.
  rewrite Htr. cbn [entered emit snd st_trace].
  rewrite <- app_assoc. reflexivity.
Qed.

Lemma run_test_case_ok (s : state) (l : loc) :
  ImageTestRunner.run_test_case W self l s
  = (Ok l, snd (ImageTestRunner.run_test_case W self l s)).
Proof.
  destruct (run_test_case_spec s l) as (r & ws & t & _ & _ & Hok & _).
  destruct (ImageTestRunner.run_test_case W self l s) as [r0 s0].
  cbn [fst snd] in *. now subst.
Qed.

Lemma run_loop_eq (cases : list loc) :
  forall (results : list loc) (passed_count : Z) (s : state),
    ImageTestRunner.run_loop W self cases results passed_count s
    = (Ok ((results ++ cases)%list, (passed_count + passed_attempts cases s)%Z),
       exec_all cases s).
Proof.
  induction cases as [| l rest IH]; intros results pc s.
  - cbn. now rewrite app_nil_r, Z.add_0_r.
  - cbn [ImageTestRunner.run_loop passed_attempts exec_all fold_left].
    unfold bind at 1. rewrite run_test_case_ok.
    unfold bind at 1. unfold getattr at 1.
    rewrite IH. rewrite <- app_assoc. cbn [app].
    cbn [snd]. f_equal. f_equal. f_equal.
    destruct (TestCase.passed _); lia.
Qed.

Lemma exec_all_cons (c : loc) (rest : list loc) (s : state) :
  exec_all (c :: rest) s
  = exec_all rest (snd (ImageTestRunner.run_test_case W self c s)).
Proof. reflexivity. Qed.

Lemma exec_all_app (a b : list loc) (s : state) :
  exec_all (a ++ b) s = exec_all b (exec_all a s).
Proof. unfold exec_all. apply fold_left_app. Qed.

Lemma exec_all_other (cases : list loc) (l : loc) :
  forall s, ~ In l cases -> st_heap (exec_all cases s) l = st_heap s l.
Proof.
  induction cases as [| c rest IH]; intros s Hnot; [reflexivity |].
  rewrite exec_all_cons.
  rewrite IH by (intros Hin; apply Hnot; now right).
  destruct (run_test_case_spec s c) as (r & ws & t & _ & _ & _ & Heff).
  destruct Heff as (_ & _ & _ & Ho).
  rewrite Ho; [reflexivity |].
  intros ->. apply Hnot. now left.
Qed.

Lemma run_test_case_identity (s : state) (c l : loc) :
  let s' := snd (ImageTestRunner.run_test_case W self c s) in
  TestCase.id (st_heap s' l) = TestCase.id (st_heap s l)
  /\ TestCase.image_path (st_heap s' l) = TestCase.image_path (st_heap s l)
  /\ TestCase.expected_description (st_heap s' l)
     = TestCase.expected_description (st_heap s l).
Proof.
  intros s'.
  destruct (run_test_case_spec s c) as (r & ws & t & _ & _ & _ & Heff).
  destruct Heff as (_ & _ & Hh & Ho). fold s' in Hh, Ho.
  destruct (Nat.eq_dec l c) as [-> | Hne].
  - rewrite Hh. apply apply_writes_identity.
  - rewrite Ho by assumption. auto.
Qed.

Lemma exec_all_identity (cases : list loc) (l : loc) :
  forall s,
    TestCase.id (st_heap (exec_all cases s) l) = TestCase.id (st_heap s l)
    /\ TestCase.image_path (st_heap (exec_all cases s) l)
       = TestCase.image_path (st_heap s l)
    /\ TestCase.expected_description (st_heap (exec_all cases s) l)
       = TestCase.expected_description (st_heap s l).
Proof.
  induction cases as [| c rest IH]; intros s; [cbn; auto |].
  rewrite exec_all_cons.
  destruct (IH (snd (ImageTestRunner.run_test_case W self c s))) as (H1 & H2 & H3).
  destruct (run_test_case_identity s c l) as (G1 & G2 & G3).
  rewrite H1, H2, H3. auto.
Qed.

(** One attempt assigns [passed] once, the value the loop then reads. *)
Lemma attempt_passed_count (s : state) (l : loc) r ws t (tc : TestCase.t) :
  body_outcome s l r ws t ->
  Z.of_nat (List.length (filter is_passed_true
                           (map (EvWrite l) (all_writes r ws t))))
  = if TestCase.passed (apply_writes (all_writes r ws t) tc) then 1%Z else 0%Z.
Proof.
  intros Hout. inversion Hout; subst; destruct tc; cbn; try reflexivity.
  destruct (PrimFloat.leb threshold score); reflexivity.
Qed.

(** The trace of a batch: one block per case, in the order of the list, and
    as many assignments of [True] to [passed] as attempts that passed. *)
Lemma exec_all_trace (cases : list loc) :
  forall s, exists wss,
    List.length wss = List.length cases
    /\ st_trace (exec_all cases s)
       = (st_trace s ++ flat_map block (combine cases wss))%list
    /\ passed_attempts cases s
       = Z.of_nat (List.length
                     (filter is_passed_true (flat_map block (combine cases wss)))).
Proof.
  induction cases as [| l rest IH]; intros s.
  - exists []. cbn. rewrite app_nil_r. auto.
  - rewrite exec_all_cons. cbn [passed_attempts].
    destruct (run_test_case_spec s l) as (r & ws & t & Hout & _ & _ & Heff).
    pose proof (attempt_passed_count s l r ws t (st_heap s l) Hout) as Hcount.
    destruct Heff as (_ & Htr & Hh & _).
    change (st_heap (entered s l) l) with (st_heap s l) in Hh.
    destruct (IH (snd (ImageTestRunner.run_test_case W self l s)))
      as (wss & Hlen & Htr' & Hpa).
    exists (all_writes r ws t :: wss).
    split; [cbn; now rewrite Hlen |].
    split.
    + rewrite Htr', Htr. cbn [entered emit snd st_trace combine flat_map block fst].
      repeat rewrite <- app_assoc. reflexivity.
    + rewrite Hpa, Hh, <- Hcount.
      cbn [combine flat_map block fst snd filter is_passed_true].
      rewrite filter_app, length_app.
      change (filter is_passed_true (block (l, all_writes r ws t)))
        with (filter is_passed_true (map (EvWrite l) (all_writes r ws t))).
      lia.
Qed.

Lemma runs_blocks (cases : list loc) :
  forall wss, List.length wss = List.length cases ->
              runs (flat_map block (combine cases wss)) = cases.
Proof.
  unfold runs.
  induction cases as [| l rest IH]; intros [| ws wss] Hlen; try discriminate;
    [reflexivity |].
  assert (Hno : forall ws0, flat_map run_of (map (EvWrite l) ws0) = []).
  { induction ws0; cbn; auto. }
  cbn [combine flat_map].
  rewrite flat_map_app. unfold block at 1.
  cbn [fst snd flat_map run_of app].
  rewrite Hno. cbn [app]. f_equal.
  apply IH. now inversion Hlen.
Qed.

Lemma asdict_all_eq (results : list loc) (s : state) :
  ImageTestRunner.asdict_all results s = (Ok (map (st_heap s) results), s).
Proof.
  induction results as [| l rest IH]; [reflexivity |].
  cbn [ImageTestRunner.asdict_all map].
  unfold bind, ImageTestRunner.asdict, getattr, ret. now rewrite IH.
Qed.

(** [run_all_tests] returns: no exception leaves it, and the division is
    never by zero. *)
Lemma run_all_tests_eq (cases : list loc) (s : state) :
  ImageTestRunner.run_all_tests W self cases s
  = (Ok (report_of cases s), final_state cases s).
Proof.
  unfold ImageTestRunner.run_all_tests.
  unfold bind at 1. rewrite run_loop_eq. cbn [app].
  rewrite Z.add_0_l.
  destruct cases as [| l rest].
  - reflexivity.
  - unfold bind at 1. unfold bind at 1.
    unfold py_truediv.
    assert (Hlen : (ImageTestRunner.len (l :: rest) =? 0)%Z = false).
    { apply Z.eqb_neq. unfold ImageTestRunner.len. cbn [List.length]. lia. }
    rewrite Hlen. unfold ret at 1.
    unfold bind at 1. rewrite asdict_all_eq.
    reflexivity.
Qed.

Lemma passed_attempts_bounds (cases : list loc) :
  forall s, (0 <= passed_attempts cases s <= ImageTestRunner.len cases)%Z.
Proof.
  unfold ImageTestRunner.len.
  induction cases as [| l rest IH]; intros s; cbn [passed_attempts List.length]; [lia |].
  specialize (IH (snd (ImageTestRunner.run_test_case W self l s))).
  destruct (TestCase.passed _); lia.
Qed.

(** When no object occurs twice, an attempt's outcome is still in the heap
    when the batch ends. *)
Lemma passed_attempts_nodup (cases : list loc) :
  forall s, NoDup cases ->
    passed_attempts cases s
    = Z.of_nat (List.length
                  (filter TestCase.passed
                     (map (st_heap (exec_all cases s)) cases))).
Proof.
  induction cases as [| l rest IH]; intros s Hnd; [reflexivity |].
  inversion Hnd as [| ? ? Hnotin Hnd']; subst.
  rewrite exec_all_cons. cbn [passed_attempts map filter].
  rewrite (exec_all_other rest l _ Hnotin).
  rewrite (IH _ Hnd').
  destruct (TestCase.passed _); cbn [List.length]; lia.
Qed.

(** C2. When the image exists, the client's [describe_image] returns and the
    comparator's [compare] returns, [run_test_case] returns its argument and
    leaves the case with the score [compare] gave, [passed] equal to
    [similarity_score >= similarity_threshold] for the threshold given to the
    constructor, the client's text as [actual_description], and a timestamp
    that is set. *)
Theorem run_test_case_pass_decision
    (vc : VisionAPIClient) (thr : float) (ti ti' : nat)
    (s : state) (l : loc) (d : string) (score : float) (t1 t2 : nat) :
  ImageTestRunner.init W vc thr ti = (Ok self, ti') ->
  os_path_exists W (st_tick s) (TestCase.image_path (st_heap s l)) = true ->
  describe_image vc (TestCase.image_path (st_heap s l)) (S (st_tick s)) = (Ok d, t1) ->
  SemanticComparator.compare (ImageTestRunner.comparator self)
    (TestCase.expected_description (st_heap s l)) d t1 = (Ok score, t2) ->
  let s' := snd (ImageTestRunner.run_test_case W self l s) in
  fst (ImageTestRunner.run_test_case W self l s) = Ok l
  /\ TestCase.similarity_score (st_heap s' l) = score
  /\ TestCase.passed (st_heap s' l)
     = PrimFloat.leb thr (TestCase.similarity_score (st_heap s' l))
  /\ TestCase.actual_description (st_heap s' l) = d
  /\ TestCase.timestamp (st_heap s' l) = isoformat (datetime_now W t2)
  /\ TestCase.timestamp (st_heap s' l) <> "".
Proof.
  intros Hinit Hex Hd Hc s'.
  destruct (init_spec _ _ _ _ Hinit) as (Hvc & Hthr & _).
  destruct (run_test_case_spec s l) as (r & ws & t & Hout & _ & Hok & Heff).
  assert (Hsc : body_outcome s l (Ok tt)
                  [WActual d; WScore score; WPassed (PrimFloat.leb threshold score);
                   WTimestamp (isoformat (datetime_now W t2))] (S t2)).
  { eapply body_scored; eauto. unfold client. rewrite Hvc. exact Hd. }
  destruct (body_outcome_det _ _ _ _ _ _ _ _ Hout Hsc) as (-> & -> & ->).
  destruct Heff as (_ & _ & Hh & _).
  fold s' in Hh. rewrite Hh.
  change (st_heap (entered s l) l) with (st_heap s l).
  unfold threshold. rewrite Hthr.
  destruct (st_heap s l); cbn.
  repeat split; auto using isoformat_nonempty.
Qed.

(** The events and the final fields of an attempt whose [try] body goes the
    given way. *)
Lemma run_test_case_writes (s : state) (l : loc) r ws t :
  body_outcome s l r ws t ->
  new_events s (snd (ImageTestRunner.run_test_case W self l s))
  = EvRun l :: map (EvWrite l) (all_writes r ws t)
  /\ st_heap (snd (ImageTestRunner.run_test_case W self l s)) l
     = apply_writes (all_writes r ws t) (st_heap s l).
Proof.
  intros Hout.
  destruct (run_test_case_spec s l) as (r0 & ws0 & t0 & Hout0 & _ & _ & Heff).
  destruct (body_outcome_det _ _ _ _ _ _ _ _ Hout0 Hout) as (-> & -> & ->).
  split; [now apply run_test_case_events |]. apply Heff.
Qed.

(** C6, as the code has it. In one attempt [actual_description] is assigned
    once or twice, and which of the two is decided by how the attempt goes.
    Image missing: once, the placeholder for the missing file. Client
    raises: once, the placeholder for its exception. Client returns and
    comparator raises: twice, the client's text first and the placeholder
    over it. Client and comparator return: once, the client's text. The last
    value assigned is the field's final value. *)
Theorem actual_description_assignments (s : state) (l : loc) :
  let s' := snd (ImageTestRunner.run_test_case W self l s) in
  let vs := actual_values l (new_events s s') in
  let final := TestCase.actual_description (st_heap s' l) in
  let path := TestCase.image_path (st_heap s l) in
  let expected := TestCase.expected_description (st_heap s l) in
  (os_path_exists W (st_tick s) path = false ->
   vs = ["Error: Image file not found: " ++ path]
   /\ final = "Error: Image file not found: " ++ path)
  /\ (forall e t1,
        os_path_exists W (st_tick s) path = true ->
        describe_image (ImageTestRunner.vision_client self) path (S (st_tick s))
        = (Raise e, t1) ->
        vs = ["Error: " ++ exn_str e] /\ final = "Error: " ++ exn_str e)
  /\ (forall d e t1 t2,
        os_path_exists W (st_tick s) path = true ->
        describe_image (ImageTestRunner.vision_client self) path (S (st_tick s))
        = (Ok d, t1) ->
        SemanticComparator.compare (ImageTestRunner.comparator self) expected d t1
        = (Raise e, t2) ->
        vs = [d; "Error: " ++ exn_str e] /\ final = "Error: " ++ exn_str e)
  /\ (forall d score t1 t2,
        os_path_exists W (st_tick s) path = true ->
        describe_image (ImageTestRunner.vision_client self) path (S (st_tick s))
        = (Ok d, t1) ->
        SemanticComparator.compare (ImageTestRunner.comparator self) expected d t1
        = (Ok score, t2) ->
        vs = [d] /\ final = d)
  /\ (List.length vs = 1 \/ List.length vs = 2)
  /\ last vs "" = final.
Proof.
  intros s' vs final path expected.
  assert (Hread : forall r ws t,
             body_outcome s l r ws t ->
             vs = flat_map (actual_of l) (map (EvWrite l) (all_writes r ws t))
             /\ final = TestCase.actual_description
                          (apply_writes (all_writes r ws t) (st_heap s l))).
  { intros r ws t Hout.
    destruct (run_test_case_writes s l r ws t Hout) as (Hev & Hh).
    subst vs final s'. rewrite Hev, Hh. split; reflexivity. }
  split.
  { intros Hex. destruct (Hread _ _ _ (body_missing s l Hex)) as (-> & ->).
    subst path. cbn [all_writes handler_writes app map flat_map actual_of exn_str
                       FileNotFoundError].
    rewrite Nat.eqb_refl. destruct (st_heap s l); split; reflexivity. }
  split.
  { intros e t1 Hex Hd.
    destruct (Hread _ _ _ (body_provider_failed s l e t1 Hex Hd)) as (-> & ->).
    cbn [all_writes handler_writes app map flat_map actual_of].
    rewrite Nat.eqb_refl. destruct (st_heap s l); split; reflexivity. }
  split.
  { intros d e t1 t2 Hex Hd Hc.
    destruct (Hread _ _ _ (body_scorer_failed s l d e t1 t2 Hex Hd Hc)) as (-> & ->).
    cbn [all_writes handler_writes app map flat_map actual_of].
    rewrite Nat.eqb_refl. destruct (st_heap s l); split; reflexivity. }
  split.
  { intros d score t1 t2 Hex Hd Hc.
    destruct (Hread _ _ _ (body_scored s l d score t1 t2 Hex Hd Hc)) as (-> & ->).
    cbn [all_writes handler_writes app map flat_map actual_of].
    rewrite Nat.eqb_refl. destruct (st_heap s l); split; reflexivity. }
  destruct (run_test_case_spec s l) as (r & ws & t & Hout & _ & _ & _).
  destruct (Hread _ _ _ Hout) as (-> & ->).
  inversion Hout; subst;
    cbn [all_writes handler_writes app map flat_map actual_of];
    rewrite Nat.eqb_refl; destruct (st_heap s l); cbn [List.length app last];
    split; auto.
Qed.

(** C9. When the [try] body raises, the attempt's assignments end with the
    handler's three, to [actual_description], [passed] and [timestamp]; no
    assignment of the attempt is to [similarity_score], which keeps the value
    it had, as do the identity fields; a case built with the defaults
    therefore still has the score [0.0]. *)
Theorem failure_keeps_similarity_score (s : state) (l : loc) (e : exn) :
  fst (ImageTestRunner.try_body W self l (entered s l)) = Raise e ->
  let s' := snd (ImageTestRunner.run_test_case W self l s) in
  (exists before ts,
      new_events s s'
      = (EvRun l :: before
           ++ [EvWrite l (WActual ("Error: " ++ exn_str e));
               EvWrite l (WPassed false); EvWrite l (WTimestamp ts)])%list
      /\ TestCase.timestamp (st_heap s' l) = ts)
  /\ existsb is_score_write (new_events s s') = false
  /\ TestCase.similarity_score (st_heap s' l) = TestCase.similarity_score (st_heap s l)
  /\ TestCase.id (st_heap s' l) = TestCase.id (st_heap s l)
  /\ TestCase.image_path (st_heap s' l) = TestCase.image_path (st_heap s l)
  /\ TestCase.expected_description (st_heap s' l)
     = TestCase.expected_description (st_heap s l)
  /\ TestCase.passed (st_heap s' l) = false
  /\ forall i p x, st_heap s l = TestCase.new i p x ->
                   TestCase.similarity_score (st_heap s' l) = 0%float.
Proof.
  intros Hraise s'.
  destruct (run_test_case_spec s l) as (r & ws & t & Hout & Hr & Hok & Heff).
  pose proof (run_test_case_events s l r ws t Heff) as Hev.
  destruct Heff as (_ & _ & Hh & _).
  subst s'. rewrite Hev, Hh. rewrite Hraise in Hr. subst r.
  change (st_heap (entered s l) l) with (st_heap s l).
  assert (Hkeep : TestCase.similarity_score
                    (apply_writes (all_writes (Raise e) ws t) (st_heap s l))
                  = TestCase.similarity_score (st_heap s l)
                  /\ TestCase.passed
                       (apply_writes (all_writes (Raise e) ws t) (st_heap s l)) = false
                  /\ TestCase.timestamp
                       (apply_writes (all_writes (Raise e) ws t) (st_heap s l))
                     = isoformat (datetime_now W t)
                  /\ existsb is_score_write
                       (map (EvWrite l) (all_writes (Raise e) ws t)) = false).
  { inversion Hout; subst; destruct (st_heap s l); cbn; auto. }
  destruct Hkeep as (Hs & Hp & Hts & Hnone).
  destruct (apply_writes_identity (all_writes (Raise e) ws t) (st_heap s l))
    as (Hi1 & Hi2 & Hi3).
  split.
  { exists (map (EvWrite l) ws), (isoformat (datetime_now W t)).
    split; [| exact Hts].
    cbn [all_writes handler_writes]. rewrite map_app. reflexivity. }
  split; [cbn [existsb is_score_write orb]; exact Hnone |].
  repeat split; auto.
  intros i p x Hnew. rewrite Hs, Hnew. reflexivity.
Qed.

(** An attempt that leaves [passed] true went through the comparison. *)
Lemma run_test_case_passed_true (s : state) (l : loc) :
  let s' := snd (ImageTestRunner.run_test_case W self l s) in
  TestCase.passed (st_heap s' l) = true ->
  exists d score t1 t2,
    describe_image (ImageTestRunner.vision_client self)
      (TestCase.image_path (st_heap s l)) (S (st_tick s)) = (Ok d, t1)
    /\ SemanticComparator.compare (ImageTestRunner.comparator self)
         (TestCase.expected_description (st_heap s l)) d t1 = (Ok score, t2)
    /\ TestCase.similarity_score (st_heap s' l) = score
    /\ PrimFloat.leb (ImageTestRunner.similarity_threshold self) score = true.
Proof.
  intros s'.
  destruct (run_test_case_spec s l) as (r & ws & t & Hout & _ & _ & Heff).
  destruct Heff as (_ & _ & Hh & _). fold s' in Hh. rewrite Hh.
  change (st_heap (entered s l) l) with (st_heap s l).
  inversion Hout; subst; destruct (st_heap s l) eqn:Htc; cbn; try discriminate.
  intros Hp. exists d, score, t1, t2.
  cbn [TestCase.image_path TestCase.expected_description] in *. auto.
Qed.

(** C7. [run_all_tests] returns a report; between its start and its end the
    trace is one block per input case, in input order, each block being the
    entry of [run_test_case] on that case followed by assignments to that
    case only; the report lists, position by position, the objects of the
    input list as they are when the run ends, so the identity fields follow
    the input order. *)
Theorem run_all_tests_order (cases : list loc) (s : state) :
  exists report s',
    ImageTestRunner.run_all_tests W self cases s = (Ok report, s')
    /\ runs (new_events s s') = cases
    /\ (exists wss, List.length wss = List.length cases
                    /\ new_events s s' = flat_map block (combine cases wss))
    /\ Report.test_cases report = map (st_heap s') cases
    /\ map TestCase.id (Report.test_cases report)
       = map (fun l => TestCase.id (st_heap s l)) cases
    /\ map TestCase.image_path (Report.test_cases report)
       = map (fun l => TestCase.image_path (st_heap s l)) cases
    /\ map TestCase.expected_description (Report.test_cases report)
       = map (fun l => TestCase.expected_description (st_heap s l)) cases.
Proof.
  exists (report_of cases s), (final_state cases s).
  split; [apply run_all_tests_eq |].
  destruct (exec_all_trace cases s) as (wss & Hlen & Htr & _).
  assert (Hnew : new_events s (final_state cases s)
                 = flat_map block (combine cases wss))
    by (apply new_events_app; exact Htr).
  rewrite Hnew.
  split; [now apply runs_blocks |].
  split; [exists wss; auto |].
  split; [reflexivity |].
  cbn [report_of Report.test_cases]. rewrite !map_map.
  repeat split; apply map_ext; intros l; apply exec_all_identity.
Qed.

(** C3. [run_all_tests] returns a report for every input list, the empty
    one included. ['total_tests'] is the length of the input. ['passed'] is
    the number of entries of ['test_cases'] whose [passed] is true, for every
    batch of distinct test-case objects, in particular whenever the ids of
    the batch are pairwise distinct as the data model has them; it is also
    the number of assignments of [True] to a [passed] field made during the
    run. ['failed'] is ['total_tests' - 'passed'], so the two add up to
    ['total_tests']. ['success_rate'] is ['passed' / 'total_tests' * 100]
    when ['total_tests'] is positive and the integer [0] for the empty list,
    where nothing is divided. *)
Theorem run_all_tests_counts (cases : list loc) (s : state) :
  exists report s',
    ImageTestRunner.run_all_tests W self cases s = (Ok report, s')
    /\ Report.total_tests report = ImageTestRunner.len cases
    /\ Report.passed report
       = Z.of_nat (List.length (filter is_passed_true (new_events s s')))
    /\ (NoDup cases ->
        Report.passed report
        = Z.of_nat (List.length (filter TestCase.passed (Report.test_cases report))))
    /\ (NoDup (map (fun l => TestCase.id (st_heap s l)) cases) ->
        Report.passed report
        = Z.of_nat (List.length (filter TestCase.passed (Report.test_cases report))))
    /\ Report.failed report = (Report.total_tests report - Report.passed report)%Z
    /\ (Report.passed report + Report.failed report)%Z = Report.total_tests report
    /\ (0 <= Report.passed report <= Report.total_tests report)%Z
    /\ ((0 < Report.total_tests report)%Z ->
        Report.success_rate report
        = NFloat (float_of_int (Report.passed report)
                  / float_of_int (Report.total_tests report) * 100)%float)
    /\ (cases = [] -> Report.success_rate report = NInt 0).
Proof.
  exists (report_of cases s), (final_state cases s).
  split; [apply run_all_tests_eq |].
  destruct (exec_all_trace cases s) as (wss & Hlen & Htr & Hpa).
  assert (Hnew : new_events s (final_state cases s)
                 = flat_map block (combine cases wss))
    by (apply new_events_app; exact Htr).
  rewrite Hnew.
  cbn [report_of Report.total_tests Report.passed Report.failed
         Report.success_rate Report.test_cases].
  split; [reflexivity |].
  split; [exact Hpa |].
  split; [intros Hnd; now apply passed_attempts_nodup |].
  split.
  { intros Hids. apply passed_attempts_nodup.
    eapply NoDup_map_inv. exact Hids. }
  split; [reflexivity |].
  split; [lia |].
  split; [apply passed_attempts_bounds |].
  split.
  - destruct cases; [cbn; lia | reflexivity].
  - intros ->. reflexivity.
Qed.

(** C1. In a batch [pre ++ l :: post], let the [try] body of the attempt on
    [l] raise [e]. Then [run_all_tests] still returns a report. The
    exception is the missing-file error, one raised by the client's
    [describe_image], or one raised by the comparator's [compare]. When the
    attempt on [l] ends, [passed] is false, [actual_description] is
    ["Error: "] followed by [str(e)], and the timestamp is set. Every case of
    the batch is entered, in order, and the cases of [post] are attempted
    from the state the failed attempt left; the entry of the report at the
    position of [l] shows the failure unless [l] occurs again later. A later
    case whose image exists, whose description arrives and whose comparison
    returns is scored as usual. *)
Theorem run_all_tests_isolates_failures
    (pre post : list loc) (l : loc) (s : state) (e : exn) :
  let cases := (pre ++ l :: post)%list in
  let s1 := exec_all pre s in
  let s2 := snd (ImageTestRunner.run_test_case W self l s1) in
  fst (ImageTestRunner.try_body W self l (entered s1 l)) = Raise e ->
  exists report s',
    ImageTestRunner.run_all_tests W self cases s = (Ok report, s')
    /\ ((os_path_exists W (st_tick s1) (TestCase.image_path (st_heap s1 l)) = false
         /\ e = FileNotFoundError
                  ("Image file not found: " ++ TestCase.image_path (st_heap s1 l)))
        \/ (exists t1,
               describe_image (ImageTestRunner.vision_client self)
                 (TestCase.image_path (st_heap s1 l)) (S (st_tick s1)) = (Raise e, t1))
        \/ (exists d t1 t2,
               describe_image (ImageTestRunner.vision_client self)
                 (TestCase.image_path (st_heap s1 l)) (S (st_tick s1)) = (Ok d, t1)
               /\ SemanticComparator.compare (ImageTestRunner.comparator self)
                    (TestCase.expected_description (st_heap s1 l)) d t1
                  = (Raise e, t2)))
    /\ TestCase.passed (st_heap s2 l) = false
    /\ TestCase.actual_description (st_heap s2 l) = "Error: " ++ exn_str e
    /\ TestCase.timestamp (st_heap s2 l) <> ""
    /\ runs (new_events s s') = cases
    /\ st_heap s' = st_heap (exec_all post s2)
    /\ st_trace s' = st_trace (exec_all post s2)
    /\ (~ In l post ->
        nth_error (Report.test_cases report) (List.length pre) = Some (st_heap s2 l))
    /\ forall mid l' rest d score t1 t2,
        post = (mid ++ l' :: rest)%list ->
        let s3 := exec_all mid s2 in
        let s4 := snd (ImageTestRunner.run_test_case W self l' s3) in
        os_path_exists W (st_tick s3) (TestCase.image_path (st_heap s3 l')) = true ->
        describe_image (ImageTestRunner.vision_client self)
          (TestCase.image_path (st_heap s3 l')) (S (st_tick s3)) = (Ok d, t1) ->
        SemanticComparator.compare (ImageTestRunner.comparator self)
          (TestCase.expected_description (st_heap s3 l')) d t1 = (Ok score, t2) ->
        TestCase.actual_description (st_heap s4 l') = d
        /\ TestCase.similarity_score (st_heap s4 l') = score
        /\ TestCase.passed (st_heap s4 l')
           = PrimFloat.leb (ImageTestRunner.similarity_threshold self) score.
Proof.
  intros cases s1 s2 Hraise.
  exists (report_of cases s), (final_state cases s).
  split; [apply run_all_tests_eq |].
  destruct (run_test_case_spec s1 l) as (r & ws & t & Hout & Hr & _ & Heff).
  rewrite Hraise in Hr. subst r.
  destruct Heff as (_ & _ & Hh & _). fold s2 in Hh.
  change (st_heap (entered s1 l) l) with (st_heap s1 l) in Hh.
  assert (Hfinal : exec_all cases s = exec_all post s2).
  { unfold cases. rewrite exec_all_app, exec_all_cons. reflexivity. }
  split.
  { inversion Hout; subst.
    - left. split; [assumption | reflexivity].
    - right; left. eauto.
    - right; right. eauto. }
  assert (Hfields : TestCase.passed (st_heap s2 l) = false
                    /\ TestCase.actual_description (st_heap s2 l)
                       = "Error: " ++ exn_str e
                    /\ TestCase.timestamp (st_heap s2 l) <> "").
  { rewrite Hh. inversion Hout; subst; destruct (st_heap s1 l); cbn;
      repeat split; auto using isoformat_nonempty. }
  destruct Hfields as (Hp & Ha & Hts).
  do 3 (split; [assumption |]).
  split.
  { destruct (exec_all_trace cases s) as (wss & Hlen & Htr & _).
    rewrite (new_events_app s (final_state cases s) _ Htr).
    now apply runs_blocks. }
  split; [cbn [final_state st_heap]; now rewrite Hfinal |].
  split; [cbn [final_state st_trace]; now rewrite Hfinal |].
  split.
  { intros Hnotin. cbn [report_of Report.test_cases].
    unfold cases at 2. rewrite map_app, nth_error_app2 by (rewrite length_map; lia).
    rewrite length_map, Nat.sub_diag. cbn [map nth_error].
    rewrite Hfinal, (exec_all_other post l s2 Hnotin). reflexivity. }
  intros mid l' rest d score t1 t2 Hpost s3 s4 Hex Hd Hc.
  destruct (run_test_case_spec s3 l') as (r' & ws' & t' & Hout' & _ & _ & Heff').
  assert (Hsc : body_outcome s3 l' (Ok tt)
                  [WActual d; WScore score; WPassed (PrimFloat.leb threshold score);
                   WTimestamp (isoformat (datetime_now W t2))] (S t2))
    by (eapply body_scored; eauto).
  destruct (body_outcome_det _ _ _ _ _ _ _ _ Hout' Hsc) as (-> & -> & ->).
  destruct Heff' as (_ & _ & Hh' & _). fold s4 in Hh'. rewrite Hh'.
  change (st_heap (entered s3 l') l') with (st_heap s3 l').
  destruct (st_heap s3 l'); cbn. auto.
Qed.

End Runner.

(** ** The constructor and the threshold *)

(** C10. For every float given as threshold, NaN, infinities and values
    outside [0, 1] included, the constructor returns a runner as soon as the
    embedding model loads, and the runner holds that very float. An attempt
    that gets a score leaves [passed] equal to [score >= threshold] for that
    float, whatever the float; and an attempt leaves [passed] true only when
    the comparison returned such a score. Hence, when every score the model
    can produce is below the threshold, no attempt passes and every report
    counts zero passed cases. *)
Theorem threshold_used_verbatim
    (W : World) (vc : VisionAPIClient) (thr : float) (ti : nat)
    (m : SentenceTransformer) :
  load_model W ti "all-MiniLM-L6-v2" = Ok m ->
  exists self,
    ImageTestRunner.init W vc thr ti = (Ok self, S ti)
    /\ ImageTestRunner.similarity_threshold self = thr
    /\ ImageTestRunner.vision_client self = vc
    /\ SemanticComparator.model (ImageTestRunner.comparator self) = m
    /\ (forall s l d score t1 t2,
          let s' := snd (ImageTestRunner.run_test_case W self l s) in
          os_path_exists W (st_tick s) (TestCase.image_path (st_heap s l)) = true ->
          describe_image vc (TestCase.image_path (st_heap s l)) (S (st_tick s))
          = (Ok d, t1) ->
          SemanticComparator.compare (ImageTestRunner.comparator self)
            (TestCase.expected_description (st_heap s l)) d t1 = (Ok score, t2) ->
          TestCase.similarity_score (st_heap s' l) = score
          /\ TestCase.passed (st_heap s' l) = PrimFloat.leb thr score)
    /\ (forall s l,
          let s' := snd (ImageTestRunner.run_test_case W self l s) in
          TestCase.passed (st_heap s' l) = true ->
          PrimFloat.leb thr (TestCase.similarity_score (st_heap s' l)) = true)
    /\ ((forall t a b e0 e1,
            m t a b = Ok (e0, e1) -> PrimFloat.ltb (cos_sim e0 e1) thr = true) ->
        (forall s l,
            TestCase.passed
              (st_heap (snd (ImageTestRunner.run_test_case W self l s)) l) = false)
        /\ forall cases s,
            exists report s',
              ImageTestRunner.run_all_tests W self cases s = (Ok report, s')
              /\ Report.passed report = 0%Z).
Proof.
  intros Hload.
  set (self := {| ImageTestRunner.vision_client := vc;
                  ImageTestRunner.comparator := {| SemanticComparator.model := m |};
                  ImageTestRunner.similarity_threshold := thr |}).
  exists self.
  split.
  { unfold ImageTestRunner.init, SemanticComparator.init, io_bind, io_try, io_call,
      io_ret. rewrite Hload. reflexivity. }
  do 3 (split; [reflexivity |]).
  split.
  { intros s l d score t1 t2 s' Hex Hd Hc.
    destruct (run_test_case_writes W self s l _ _ _
                (body_scored W self s l d score t1 t2 Hex Hd Hc)) as (_ & Hh).
    subst s'. rewrite Hh. destruct (st_heap s l); split; reflexivity. }
  assert (Hdec : forall s l,
             TestCase.passed
               (st_heap (snd (ImageTestRunner.run_test_case W self l s)) l) = true ->
             exists e0 e1 t a b,
               m t a b = Ok (e0, e1)
               /\ TestCase.similarity_score
                    (st_heap (snd (ImageTestRunner.run_test_case W self l s)) l)
                  = cos_sim e0 e1
               /\ PrimFloat.leb thr (cos_sim e0 e1) = true).
  { intros s l Hp.
    destruct (run_test_case_passed_true W self s l Hp)
      as (d & score & t1 & t2 & _ & Hc & Hs & Hle).
    destruct (compare_spec _ _ _ _ _ _ Hc) as (e0 & e1 & Hm & -> & _).
    exists e0, e1, t1, (TestCase.expected_description (st_heap s l)), d.
    auto. }
  split.
  { intros s l s' Hp.
    destruct (Hdec s l Hp) as (e0 & e1 & t & a & b & _ & Hs & Hle).
    subst s'. rewrite Hs. exact Hle. }
  intros Hbelow.
  assert (Hnone : forall s l,
             TestCase.passed
               (st_heap (snd (ImageTestRunner.run_test_case W self l s)) l) = false).
  { intros s l.
    destruct (TestCase.passed
                (st_heap (snd (ImageTestRunner.run_test_case W self l s)) l)) eqn:Hp;
      [| reflexivity].
    destruct (Hdec s l Hp) as (e0 & e1 & t & a & b & Hm & _ & Hle).
    apply Hbelow, ltb_not_geb in Hm. congruence. }
  split; [exact Hnone |].
  intros cases s.
  exists (report_of W self cases s), (final_state W self cases s).
  split; [apply run_all_tests_eq |].
  cbn [report_of Report.passed].
  clear - Hnone. revert s.
  induction cases as [| l rest IH]; intros s; [reflexivity |].
  cbn [passed_attempts]. rewrite Hnone, IH. reflexivity.
Qed.

(** ** The clients *)

Section Azure.
Context (W : World).

(** What [describe_image] returns once the file is read and the service
    answers 200 with a JSON body. *)
Lemma azure_describe_image_200 (self : AzureComputerVisionClient.t)
    (image_path image_data : string) (t : nat) (response : http_response)
    (body : pyval) :
  read_file W t image_path = Ok image_data ->
  requests_post W (S t) (AzureComputerVisionClient.analyze_request self image_data)
    = Ok response ->
  status_code response = 200%Z ->
  json response = Ok body ->
  AzureComputerVisionClient.describe_image W self image_path t
  = (AzureComputerVisionClient.caption_of body, S (S t)).
Proof.
  intros Hread Hpost Hstatus Hjson.
  unfold AzureComputerVisionClient.describe_image, io_bind, io_call, io_lift.
  rewrite Hread, Hpost, Hstatus, Hjson. cbn [Z.eqb Pos.eqb].
  destruct (AzureComputerVisionClient.caption_of body); reflexivity.
Qed.

(** A subscript that succeeds tells that the key is there. *)
Lemma py_getitem_contains (v x : pyval) (k : string) :
  py_getitem v k = Ok x -> py_contains k v = Ok true.
Proof.
  destruct v; cbn; try discriminate.
  destruct (dict_get k d); [reflexivity | discriminate].
Qed.

Lemma caption_of_no_description (body : pyval) :
  py_contains "description" body = Ok false ->
  AzureComputerVisionClient.caption_of body = Ok (PyStr "No description available").
Proof.
  intros H. unfold AzureComputerVisionClient.caption_of, res_bind.
  now rewrite H.
Qed.

Lemma caption_of_no_captions (body description : pyval) :
  py_getitem body "description" = Ok description ->
  py_contains "captions" description = Ok false ->
  AzureComputerVisionClient.caption_of body = Ok (PyStr "No description available").
Proof.
  intros Hd Hno. unfold AzureComputerVisionClient.caption_of, res_bind.
  now rewrite (py_getitem_contains _ _ _ Hd), Hd, Hno.
Qed.

Lemma caption_of_empty (body description captions : pyval) :
  py_getitem body "description" = Ok description ->
  py_getitem description "captions" = Ok captions ->
  py_truthy captions = false ->
  AzureComputerVisionClient.caption_of body = Ok (PyStr "No description available").
Proof.
  intros Hd Hc Hf. unfold AzureComputerVisionClient.caption_of, res_bind.
  now rewrite (py_getitem_contains _ _ _ Hd), Hd, (py_getitem_contains _ _ _ Hc), Hc, Hf.
Qed.

Lemma caption_of_first (body description first : pyval) (rest : list pyval)
    (caption : pyval) :
  py_getitem body "description" = Ok description ->
  py_getitem description "captions" = Ok (PyList (first :: rest)) ->
  py_getitem first "text" = Ok caption ->
  AzureComputerVisionClient.caption_of body = Ok caption.
Proof.
  intros Hd Hc Ht. unfold AzureComputerVisionClient.caption_of, res_bind.
  rewrite (py_getitem_contains _ _ _ Hd), Hd, (py_getitem_contains _ _ _ Hc), Hc.
  cbn [py_truthy py_getitem0]. exact Ht.
Qed.

(** C5. On a 200 response with a JSON body, [describe_image] returns
    ["No description available"] without raising when the body has no
    ['description'] key, when the value under ['description'] has no
    ['captions'] key, and when the captions value is empty, an empty list in
    particular; when the captions are a list that is not empty it returns
    the ['text'] of its first element. *)
Theorem azure_caption_or_sentinel (self : AzureComputerVisionClient.t)
    (image_path image_data : string) (t : nat) (response : http_response)
    (body : pyval) :
  read_file W t image_path = Ok image_data ->
  requests_post W (S t) (AzureComputerVisionClient.analyze_request self image_data)
    = Ok response ->
  status_code response = 200%Z ->
  json response = Ok body ->
  let r := fst (AzureComputerVisionClient.describe_image W self image_path t) in
  (py_contains "description" body = Ok false ->
   r = Ok (PyStr "No description available"))
  /\ (forall description,
        py_getitem body "description" = Ok description ->
        py_contains "captions" description = Ok false ->
        r = Ok (PyStr "No description available"))
  /\ (forall description captions,
        py_getitem body "description" = Ok description ->
        py_getitem description "captions" = Ok captions ->
        py_truthy captions = false ->
        r = Ok (PyStr "No description available"))
  /\ (forall description,
        py_getitem body "description" = Ok description ->
        py_getitem description "captions" = Ok (PyList []) ->
        r = Ok (PyStr "No description available"))
  /\ (forall description first rest caption,
        py_getitem body "description" = Ok description ->
        py_getitem description "captions" = Ok (PyList (first :: rest)) ->
        py_getitem first "text" = Ok caption ->
        r = Ok caption).
Proof.
  intros Hread Hpost Hstatus Hjson r.
  subst r. rewrite (azure_describe_image_200 _ _ _ _ _ _ Hread Hpost Hstatus Hjson).
  cbn [fst].
  split; [apply caption_of_no_description |].
  split; [apply caption_of_no_captions |].
  split; [apply caption_of_empty |].
  split.
  - intros description Hd Hc. now apply (caption_of_empty body description (PyList [])).
  - apply caption_of_first.
Qed.

End Azure.

(** C8. The MIME type [describe_image] puts in the data URL of its request
    is read off the lowercased extension of the path: [.jpg] and [.jpeg]
    give [image/jpeg], [.png] gives [image/png], [.gif] gives [image/gif],
    [.webp] gives [image/webp], and every other extension, the empty one
    included, gives [image/jpeg]. *)
Theorem mime_type_mapping (image_path image_data : string) :
  let ext := lower (snd (splitext image_path)) in
  OpenAIVisionClient.mime_type image_path = mime_spec ext
  /\ OpenAIVisionClient.image_url image_path image_data
     = "data:" ++ mime_spec ext ++ ";base64," ++ image_data
  /\ (OpenAIVisionClient.mime_type image_path = "image/png" <-> ext = ".png")
  /\ (OpenAIVisionClient.mime_type image_path = "image/gif" <-> ext = ".gif")
  /\ (OpenAIVisionClient.mime_type image_path = "image/webp" <-> ext = ".webp")
  /\ (ext <> ".png" /\ ext <> ".gif" /\ ext <> ".webp" <->
      OpenAIVisionClient.mime_type image_path = "image/jpeg").
Proof.
  intros ext.
  assert (Heq : OpenAIVisionClient.mime_type image_path = mime_spec ext).
  { unfold OpenAIVisionClient.mime_type, OpenAIVisionClient.mime_types, mime_spec.
    fold ext. cbn [dict_get_default].
    repeat match goal with
           | |- context [String.eqb ext ?k] => destruct (String.eqb ext k); try reflexivity
           end. }
  split; [exact Heq |].
  split; [unfold OpenAIVisionClient.image_url; now rewrite Heq |].
  rewrite Heq. unfold mime_spec.
  destruct (String.eqb_spec ext ".jpg") as [-> | Hjpg];
    [repeat split; intros; try discriminate; try tauto; intuition discriminate |].
  destruct (String.eqb_spec ext ".jpeg") as [-> | Hjpeg];
    [repeat split; intros; try discriminate; try tauto; intuition discriminate |].
  destruct (String.eqb_spec ext ".png") as [-> | Hpng];
    [repeat split; intros; try discriminate; try tauto; intuition discriminate |].
  destruct (String.eqb_spec ext ".gif") as [-> | Hgif];
    [repeat split; intros; try discriminate; try tauto; intuition discriminate |].
  destruct (String.eqb_spec ext ".webp") as [-> | Hwebp];
    [repeat split; intros; try discriminate; try tauto; intuition discriminate |].
  repeat split; intros; try discriminate; try tauto.
Qed.

(** ** The sample world at work *)

Example sample_batch_report :
  fst (ImageTestRunner.run_all_tests sample_world sample_runner [0; 1; 2; 3; 4]
         sample_state)
  = Ok {| Report.test_cases :=
            [TestCase.mk 1 "cat.png" "a cat" "a cat" 0.99999999999999989 true
               "2024-05-17T09:30:00.000003";
             TestCase.mk 2 "down.png" "a cat" "Error: API down" 0 false
               "2024-05-17T09:30:00.000006";
             TestCase.mk 3 "car.png" "a cat" "a car" 0 false
               "2024-05-17T09:30:00.000010";
             TestCase.mk 4 "missing.png" "a cat"
               "Error: Image file not found: missing.png" 0 false
               "2024-05-17T09:30:00.000012";
             TestCase.mk 5 "garbled.png" "a cat" "Error: encode failed" 0 false
               "2024-05-17T09:30:00.000016"];
          Report.total_tests := 5;
          Report.passed := 1;
          Report.failed := 4;
          Report.success_rate := NFloat 20;
          Report.timestamp := "2024-05-17T09:30:00.000017" |}.
Proof. vm_compute. reflexivity. Qed.

Example sample_empty_report :
  fst (ImageTestRunner.run_all_tests sample_world sample_runner [] sample_state)
  = Ok {| Report.test_cases := []; Report.total_tests := 0; Report.passed := 0;
          Report.failed := 0; Report.success_rate := NInt 0;
          Report.timestamp := "2024-05-17T09:30:00" |}.
Proof. vm_compute. reflexivity. Qed.

Example sample_mime_types :
  map OpenAIVisionClient.mime_type
    ["photo.jpg"; "photo.JPEG"; "a/b.c/photo.PNG"; "anim.gif"; "x.WebP";
     "scan.tiff"; "noext"; ".png"; "dir.png/file"; "archive.tar.gz"]
  = ["image/jpeg"; "image/jpeg"; "image/png"; "image/gif"; "image/webp";
     "image/jpeg"; "image/jpeg"; "image/jpeg"; "image/jpeg"; "image/jpeg"].
Proof. vm_compute. reflexivity. Qed.

(** A body whose ['description'] is [null] has no container to look
    ['captions'] up in: the membership test raises. *)
Example caption_of_null_description :
  AzureComputerVisionClient.caption_of (PyDict [("description", PyNone)])
  = Raise (TypeError "argument of type 'NoneType' is not iterable").
Proof. reflexivity. Qed.

Example sample_openai_description :
  OpenAIVisionClient.describe_image (world_answering body_one_choice) openai
    "cat.PNG" 0
  = (Ok "A cat on a sofa.", 2)
  /\ OpenAIVisionClient.image_url "cat.PNG" "Ynl0ZXM=" = "data:image/png;base64,Ynl0ZXM=".
Proof. vm_compute. split; reflexivity. Qed.

Example strip_unicode_whitespace :
  strip (String (ascii_of_nat 194) (String (ascii_of_nat 160)
           (" a  b" ++ String (ascii_of_nat 226) (String (ascii_of_nat 128)
                         (String (ascii_of_nat 137) (String (ascii_of_nat 10) ""))))))
  = "a  b"
  /\ strip "" = "" /\ strip "  " = "" /\ strip "x" = "x"
  /\ strip (String (ascii_of_nat 195) (String (ascii_of_nat 160) " "))
     = String (ascii_of_nat 195) (String (ascii_of_nat 160) "").
Proof. vm_compute. repeat split. Qed.

Example sample_azure_caption :
  AzureComputerVisionClient.describe_image sample_world
    (AzureComputerVisionClient.init "https://example.invalid" "key") "cat.png" 0
  = (Ok (PyStr "a cat on a sofa"), 2).
Proof. vm_compute. reflexivity. Qed.

(** ** The theorems at the sample world *)

Lemma sample_init :
  ImageTestRunner.init sample_world sample_client 0.7 0 = (Ok sample_runner, 1).
Proof. reflexivity. Qed.

(** The first case of the sample batch is scored and passes. *)
Lemma run_test_case_pass_decision_witness :
  let s' := snd (ImageTestRunner.run_test_case sample_world sample_runner 0
                   sample_state) in
  TestCase.similarity_score (st_heap s' 0) = cos_sim [1; 2]%float [1; 2]%float
  /\ TestCase.passed (st_heap s' 0)
     = PrimFloat.leb 0.7 (TestCase.similarity_score (st_heap s' 0))
  /\ TestCase.actual_description (st_heap s' 0) = "a cat"
  /\ TestCase.timestamp (st_heap s' 0) <> "".
Proof.
  destruct (run_test_case_pass_decision sample_world sample_runner
              sample_client 0.7 0 1 sample_state 0 "a cat"
              (cos_sim [1; 2]%float [1; 2]%float) 2 3
              sample_init eq_refl eq_refl eq_refl)
    as (_ & Hs & Hp & Ha & _ & Hts).
  repeat split; assumption.
Defined.

(** The second case of the sample batch fails in the client; the batch goes
    on and the third case is scored. *)
Lemma run_all_tests_isolates_failures_witness :
  exists report s',
    ImageTestRunner.run_all_tests sample_world sample_runner [0; 1; 2] sample_state
    = (Ok report, s')
    /\ nth_error (Report.test_cases report) 1
       = Some (TestCase.mk 2 "down.png" "a cat" "Error: API down" 0 false
                 "2024-05-17T09:30:00.000006")
    /\ runs (new_events sample_state s') = [0; 1; 2]
    /\ TestCase.actual_description (st_heap s' 2) = "a car".
Proof.
  destruct (run_all_tests_isolates_failures sample_world sample_runner
              [0] [2] 1 sample_state (Exn "Exception" "API down") eq_refl)
    as (report & s' & Hrun & _ & _ & _ & _ & Hruns & Hheap & _ & Hnth & Hlater).
  exists report, s'.
  split; [exact Hrun |].
  split.
  { etransitivity; [apply Hnth; cbn; intuition discriminate |].
    vm_compute. reflexivity. }
  split; [exact Hruns |].
  rewrite Hheap.
  pose proof (Hlater [] 2 [] "a car" (cos_sim [1; 0]%float [0; 1]%float) 9 10
                eq_refl
                ltac:(vm_compute; reflexivity) ltac:(vm_compute; reflexivity)
                ltac:(vm_compute; reflexivity)) as Hl.
  destruct Hl as (Ha & _).
  vm_compute in Ha. vm_compute. exact Ha.
Defined.

(** The sample batch: five cases with the ids 1 to 5, one of which passes. *)
Lemma run_all_tests_counts_witness :
  exists report s',
    ImageTestRunner.run_all_tests sample_world sample_runner [0; 1; 2; 3; 4]
      sample_state = (Ok report, s')
    /\ Report.passed report
       = Z.of_nat (List.length (filter TestCase.passed (Report.test_cases report)))
    /\ (Report.passed report + Report.failed report)%Z = 5%Z
    /\ Report.success_rate report
       = NFloat (float_of_int (Report.passed report) / float_of_int 5 * 100)%float.
Proof.
  destruct (run_all_tests_counts sample_world sample_runner [0; 1; 2; 3; 4]
              sample_state)
    as (report & s' & Hrun & Htotal & _ & _ & Hids & _ & Hsum & _ & Hrate & _).
  exists report, s'.
  split; [exact Hrun |].
  split.
  { apply Hids. repeat constructor; cbn; intuition discriminate. }
  rewrite Htotal in Hsum, Hrate.
  split; [exact Hsum |].
  apply Hrate. reflexivity.
Defined.

(** Why the objects of a batch have to be distinct: a list that holds one
    object twice, in a world that changes in between. The first attempt on
    the object passes and is counted, the second one fails, and both entries
    of the report show the second outcome. *)
Example repeated_object_is_counted_per_attempt :
  exists report s',
    ImageTestRunner.run_all_tests sample_world flaky_runner [0; 0] sample_state
    = (Ok report, s')
    /\ Report.total_tests report = 2%Z
    /\ Report.passed report = 1%Z
    /\ map TestCase.passed (Report.test_cases report) = [false; false]
    /\ Report.passed report
       <> Z.of_nat (List.length (filter TestCase.passed (Report.test_cases report))).
Proof.
  eexists _, _.
  split; [vm_compute; reflexivity |].
  cbn. repeat split; discriminate.
Qed.

(** C6 as stated fails when the comparator raises after the client
    returned: the client's text is assigned and then overwritten. *)
Lemma actual_description_overwritten :
  let s' := snd (ImageTestRunner.run_test_case sample_world sample_runner 4
                   sample_state) in
  actual_values 4 (new_events sample_state s') = ["garbled"; "Error: encode failed"]
  /\ List.length (actual_values 4 (new_events sample_state s')) <> 1
  /\ TestCase.actual_description (st_heap s' 4) = "Error: encode failed".
Proof. vm_compute. repeat split; discriminate. Qed.

(** The four ways of an attempt in the sample batch: image missing, client
    raising, comparator raising after the client returned, and scored. *)
Lemma actual_description_assignments_witness :
  actual_values 3
    (new_events sample_state
       (snd (ImageTestRunner.run_test_case sample_world sample_runner 3 sample_state)))
  = ["Error: Image file not found: missing.png"]
  /\ actual_values 1
       (new_events sample_state
          (snd (ImageTestRunner.run_test_case sample_world sample_runner 1
                  sample_state)))
     = ["Error: API down"]
  /\ actual_values 4
       (new_events sample_state
          (snd (ImageTestRunner.run_test_case sample_world sample_runner 4
                  sample_state)))
     = ["garbled"; "Error: encode failed"]
  /\ actual_values 0
       (new_events sample_state
          (snd (ImageTestRunner.run_test_case sample_world sample_runner 0
                  sample_state)))
     = ["a cat"].
Proof.
  split; [| split; [| split]].
  - exact (proj1 (proj1 (actual_description_assignments sample_world sample_runner
                           sample_state 3) eq_refl)).
  - exact (proj1 (proj1 (proj2 (actual_description_assignments sample_world
                                  sample_runner sample_state 1))
                    (Exn "Exception" "API down") 2 eq_refl eq_refl)).
  - exact (proj1 (proj1 (proj2 (proj2 (actual_description_assignments sample_world
                                         sample_runner sample_state 4)))
                    "garbled" (Exn "RuntimeError" "encode failed") 2 3
                    eq_refl eq_refl eq_refl)).
  - exact (proj1 (proj1 (proj2 (proj2 (proj2 (actual_description_assignments
                                                sample_world sample_runner
                                                sample_state 0))))
                    "a cat" (cos_sim [1; 2]%float [1; 2]%float) 2 3
                    eq_refl eq_refl eq_refl)).
Defined.

(** The fifth case of the sample batch fails in the comparator and keeps the
    default score. *)
Lemma failure_keeps_similarity_score_witness :
  let s' := snd (ImageTestRunner.run_test_case sample_world sample_runner 4
                   sample_state) in
  TestCase.similarity_score (st_heap s' 4) = 0%float
  /\ existsb is_score_write (new_events sample_state s') = false
  /\ TestCase.passed (st_heap s' 4) = false.
Proof.
  destruct (failure_keeps_similarity_score sample_world sample_runner
              sample_state 4 (Exn "RuntimeError" "encode failed") eq_refl)
    as (_ & Hnone & _ & _ & _ & _ & Hp & Hnew).
  split; [apply (Hnew 5%Z "garbled.png" "a cat"); reflexivity |].
  split; assumption.
Defined.

Lemma sample_model_below_two (t : nat) (a b : string) (e0 e1 : list float) :
  sample_model t a b = Ok (e0, e1) -> PrimFloat.ltb (cos_sim e0 e1) 2 = true.
Proof.
  unfold sample_model.
  destruct (String.eqb b "garbled"); [discriminate |].
  destruct (String.eqb a b); intros H; inversion H; subst; vm_compute; reflexivity.
Qed.

(** A runner built with the threshold [2.0]: the constructor takes it, and
    with the sample model no case of the sample batch passes. A runner built
    with the threshold [-5.0]: the case described as a car, whose score is
    [0.0], passes. *)
Lemma threshold_used_verbatim_witness :
  (exists self,
      ImageTestRunner.init sample_world sample_client 2 0 = (Ok self, 1)
      /\ ImageTestRunner.similarity_threshold self = 2%float
      /\ exists report s',
          ImageTestRunner.run_all_tests sample_world self [0; 1; 2; 3; 4] sample_state
          = (Ok report, s')
          /\ Report.passed report = 0%Z)
  /\ (exists self,
        ImageTestRunner.init sample_world sample_client (-5) 0 = (Ok self, 1)
        /\ TestCase.passed
             (st_heap (snd (ImageTestRunner.run_test_case sample_world self 2
                              sample_state)) 2) = true).
Proof.
  split.
  - destruct (threshold_used_verbatim sample_world sample_client 2 0 sample_model
                eq_refl)
      as (self & Hinit & Hthr & _ & _ & _ & _ & Hnone).
    exists self.
    split; [exact Hinit |].
    split; [exact Hthr |].
    destruct (Hnone sample_model_below_two) as (_ & Hbatch).
    apply Hbatch.
  - destruct (threshold_used_verbatim sample_world sample_client (-5) 0 sample_model
                eq_refl)
      as (self & Hinit & _ & _ & Hmodel & Hscored & _).
    exists self.
    split; [exact Hinit |].
    assert (Hcompare :
              SemanticComparator.compare (ImageTestRunner.comparator self)
                (TestCase.expected_description (st_heap sample_state 2)) "a car" 2
              = (Ok (cos_sim [1; 0]%float [0; 1]%float), 3)).
    { unfold SemanticComparator.compare, io_try, io_bind, io_call, io_ret.
      rewrite Hmodel. reflexivity. }
    destruct (Hscored sample_state 2 "a car" (cos_sim [1; 0]%float [0; 1]%float) 2 3
                eq_refl eq_refl Hcompare) as (_ & Hp).
    rewrite Hp. vm_compute. reflexivity.
Defined.

(** Four bodies: no description, a description without captions, an empty
    caption list, and two captions. *)
Lemma azure_caption_or_sentinel_witness :
  fst (AzureComputerVisionClient.describe_image
         (world_answering body_no_description) azure "cat.png" 0)
  = Ok (PyStr "No description available")
  /\ fst (AzureComputerVisionClient.describe_image
            (world_answering body_no_captions) azure "cat.png" 0)
     = Ok (PyStr "No description available")
  /\ fst (AzureComputerVisionClient.describe_image
            (world_answering body_empty_captions) azure "cat.png" 0)
     = Ok (PyStr "No description available")
  /\ fst (AzureComputerVisionClient.describe_image
            (world_answering body_two_captions) azure "cat.png" 0)
     = Ok (PyStr "a cat").
Proof.
  split; [| split; [| split]].
  - exact (proj1 (azure_caption_or_sentinel (world_answering body_no_description)
                    azure "cat.png" "bytes" 0 (response_with body_no_description)
                    body_no_description eq_refl eq_refl eq_refl eq_refl) eq_refl).
  - exact (proj1 (proj2 (azure_caption_or_sentinel (world_answering body_no_captions)
                           azure "cat.png" "bytes" 0 (response_with body_no_captions)
                           body_no_captions eq_refl eq_refl eq_refl eq_refl))
             (PyDict [("tags", PyList [])]) eq_refl eq_refl).
  - exact (proj1 (proj2 (proj2 (proj2
             (azure_caption_or_sentinel (world_answering body_empty_captions)
                azure "cat.png" "bytes" 0 (response_with body_empty_captions)
                body_empty_captions eq_refl eq_refl eq_refl eq_refl))))
             (PyDict [("captions", PyList [])]) eq_refl eq_refl).
  - exact (proj2 (proj2 (proj2 (proj2
             (azure_caption_or_sentinel (world_answering body_two_captions)
                azure "cat.png" "bytes" 0 (response_with body_two_captions)
                body_two_captions eq_refl eq_refl eq_refl eq_refl))))
             (PyDict [("captions",
                       PyList [PyDict [("text", PyStr "a cat")];
                               PyDict [("text", PyStr "a pet")]])])
             (PyDict [("text", PyStr "a cat")])
             [PyDict [("text", PyStr "a pet")]]
             (PyStr "a cat") eq_refl eq_refl eq_refl).
Defined.

(** C4. With a model that embeds two texts in opposite directions,
    [compare] returns [-1.0], below the [0] its docstring promises. *)
Theorem compare_negative_score :
  SemanticComparator.compare {| SemanticComparator.model := opposed_model |}
    "a plate of pasta" "a red sports car" 0
  = (Ok (-1)%float, 1)
  /\ PrimFloat.ltb (-1) 0 = true
  /\ PrimFloat.leb 0 (-1) = false.
Proof. vm_compute. repeat split. Qed.

